(** * VEML7700 ambient light sensor driver: a shallow embedding

    The driver class [VEML7700] of [adafruit_veml7700.py] is embedded as
    state-passing code over a [World] that holds the device's configuration
    register, the driver's [last_read] attribute, the monotonic clock and a
    log of the effects performed.  Everything the driver cannot control
    (bus faults, the sensor's readings, how long an operation takes) is
    supplied by an [Env] of oracles indexed by the number of effects
    performed so far.

    Numbers: lux values are binary64 floats (Python [float]), modelled by
    the primitive floats; register contents and raw counts are integers;
    instants and durations are exact rationals. *)

From Stdlib Require Import ZArith QArith Qminmax List Bool Lia Lqa.
From Stdlib Require Import Strings.Byte.
From Stdlib Require Import Floats.PrimFloat.
From Stdlib Require Import Uint63.
Import ListNotations.

Set Warnings "-inexact-float".

Local Open Scope Z_scope.

(** ** Exceptions, outcomes and the driver monad *)

(** The Python exceptions the driver can meet. *)
Inductive exn : Type :=
| OSError
| KeyError
| ValueError
| IndexError
| RuntimeError.

Definition exn_eqb (a b : exn) : bool :=
  match a, b with
  | OSError, OSError | KeyError, KeyError | ValueError, ValueError
  | IndexError, IndexError | RuntimeError, RuntimeError => true
  | _, _ => false
  end.

(** What a call does: it returns, it raises, or the loop budget of the
    model ran out before the call finished. *)
Inductive outcome (A : Type) : Type :=
| Ok (a : A)
| Raise (e : exn)
| OutOfFuel.

Arguments Ok {A} a.
Arguments Raise {A} e.
Arguments OutOfFuel {A}.

(** The effects a call performs, in order. *)
Inductive event : Type :=
| EvBusRead (addr : Z) (value : Z)
| EvBusWrite (addr : Z) (value : Z)
| EvBusFault (e : exn)
| EvClock (seconds : Q)
| EvSleep (seconds : Q).

Record World : Type := mkWorld {
  conf0 : Z;            (* ALS_CONF_0, register 0x00, 16 bits *)
  last_read : Q;        (* self.last_read, milliseconds *)
  clock : Q;            (* time.monotonic(), seconds *)
  tick : nat;           (* number of effects performed so far *)
  log : list event      (* effects performed, oldest first *)
}.

(** The environment: for the effect number [n], whether a bus transaction
    fails there, the two bytes the ALS data register returns, and the time
    the effect takes beyond what the driver asked for. *)
Record Env : Type := mkEnv {
  fault : nat -> option exn;
  light_bytes : nat -> byte * byte;
  elapse : nat -> Q
}.

Definition M (A : Type) : Type := World -> outcome A * World.

Definition ret {A} (a : A) : M A := fun w => (Ok a, w).

Definition bind {A B} (m : M A) (k : A -> M B) : M B :=
  fun w =>
    match m w with
    | (Ok a, w') => k a w'
    | (Raise e, w') => (Raise e, w')
    | (OutOfFuel, w') => (OutOfFuel, w')
    end.

Definition raise {A} (e : exn) : M A := fun w => (Raise e, w).

Definition out_of_fuel {A} : M A := fun w => (OutOfFuel, w).

(** [try: ... except e: ...] for one exception class. *)
Definition try_except {A} (m : M A) (e : exn) (handler : M A) : M A :=
  fun w =>
    match m w with
    | (Raise e', w') => if exn_eqb e' e then handler w' else (Raise e', w')
    | r => r
    end.

Declare Scope drv_scope.
Delimit Scope drv_scope with drv.

Notation "x <- m ;; k" := (bind m (fun x => k))
  (at level 100, m at next level, right associativity) : drv_scope.
Notation "m ;;; k" := (bind m (fun _ => k))
  (at level 100, right associativity) : drv_scope.

Local Open Scope drv_scope.

(** ** Class constants *)

Definition ALS_GAIN_1 : Z := 0x0.
Definition ALS_GAIN_2 : Z := 0x1.
Definition ALS_GAIN_1_8 : Z := 0x2.
Definition ALS_GAIN_1_4 : Z := 0x3.

Definition ALS_25MS : Z := 0xC.
Definition ALS_50MS : Z := 0x8.
Definition ALS_100MS : Z := 0x0.
Definition ALS_200MS : Z := 0x1.
Definition ALS_400MS : Z := 0x2.
Definition ALS_800MS : Z := 0x3.

(** A Python dict with integer keys, as the list of its items. *)
Fixpoint dict_get {V} (d : list (Z * V)) (k : Z) : option V :=
  match d with
  | [] => None
  | (k', v) :: d' => if Z.eqb k' k then Some v else dict_get d' k
  end.

(** [gain_values]: the entries 2 and 1 are Python ints; they enter only
    float division and comparison with the int 2, where an int and the
    float of the same value behave alike. *)
Definition gain_values : list (Z * float) :=
  [ (ALS_GAIN_2, 2%float);
    (ALS_GAIN_1, 1%float);
    (ALS_GAIN_1_4, 0.25%float);
    (ALS_GAIN_1_8, 0.125%float) ].

Definition gain_settings : list Z :=
  [ALS_GAIN_1_8; ALS_GAIN_1_4; ALS_GAIN_1; ALS_GAIN_2].

Definition integration_time_values : list (Z * Z) :=
  [ (ALS_25MS, 25);
    (ALS_50MS, 50);
    (ALS_100MS, 100);
    (ALS_200MS, 200);
    (ALS_400MS, 400);
    (ALS_800MS, 800) ].

Definition integration_time_settings : list Z :=
  [ALS_25MS; ALS_50MS; ALS_100MS; ALS_200MS; ALS_400MS; ALS_800MS].

(** [list.index(x)]: position of the first occurrence. *)
Fixpoint list_index (l : list Z) (x : Z) : option nat :=
  match l with
  | [] => None
  | y :: l' => if Z.eqb y x then Some O
               else match list_index l' x with
                    | Some i => Some (S i)
                    | None => None
                    end
  end.

(** ** Bit fields of a 16-bit register *)

(** [bit_mask = ((1 << num_bits) - 1) << lowest_bit]. *)
Definition bit_mask (num_bits lowest_bit : Z) : Z :=
  Z.shiftl (Z.ones num_bits) lowest_bit.

(** [(reg & bit_mask) >> lowest_bit]. *)
Definition field_get (reg num_bits lowest_bit : Z) : Z :=
  Z.shiftr (Z.land reg (bit_mask num_bits lowest_bit)) lowest_bit.

(** [reg &= ~bit_mask; reg |= value << lowest_bit], stored back as the two
    bytes of the register. *)
Definition field_set (reg num_bits lowest_bit value : Z) : Z :=
  Z.land
    (Z.lor (Z.land reg (Z.lnot (bit_mask num_bits lowest_bit)))
           (Z.shiftl value lowest_bit))
    0xFFFF.

(** [struct.unpack("<H", ...)] of the two bytes read. *)
Definition unpack_H (b : byte * byte) : Z :=
  Z.of_N (Byte.to_N (fst b)) + 256 * Z.of_N (Byte.to_N (snd b)).

(** The registers of the device the driver touches. *)
Inductive register : Type :=
| REG_ALS_CONF_0     (* 0x00 *)
| REG_ALS.           (* 0x04 *)

Definition register_address (r : register) : Z :=
  match r with
  | REG_ALS_CONF_0 => 0x00
  | REG_ALS => 0x04
  end.

(** [a < b] on rationals, as a boolean. *)
Definition Qltb (a b : Q) : bool := negb (Qle_bool b a).

(** Python's [max(a, b)]: the first argument unless the second is larger. *)
Definition py_max (a b : Q) : Q := if Qltb a b then b else a.

(** An int as a float ([float(n)]), for the 16-bit counts and the small
    constants of the driver (exact below [2^53]). *)
Definition float_of_Z (n : Z) : float := PrimFloat.of_uint63 (Uint63.of_Z n).

(** The non-linear correction of [compute_lux]. *)
Definition correction (lux : float) : float :=
  ((((6.0135e-13 * lux - 9.3924e-9) * lux + 8.1488e-5) * lux + 1.0023) * lux)%float.

(** ** Scenarios

    Concrete environments and worlds on which the statements below are
    instantiated.  Every effect takes one millisecond beyond what was asked
    for. *)

(** A bus that works and a sensor in the dark: every raw reading is 50. *)
Definition dark_env : Env :=
  mkEnv (fun _ => None) (fun _ => (x32, x00)) (fun _ => 1 # 1000)%Q.

(** A bus that works and a lit room: every raw reading is 150. *)
Definition indoor_env : Env :=
  mkEnv (fun _ => None) (fun _ => (x96, x00)) (fun _ => 1 # 1000)%Q.

(** A bus that works and full sun: every raw reading is 65330. *)
Definition sunny_env : Env :=
  mkEnv (fun _ => None) (fun _ => (x32, xff)) (fun _ => 1 # 1000)%Q.

(** A bus whose first and fourth transactions fail. *)
Definition flaky_env : Env :=
  mkEnv (fun n => match n with
                  | 0%nat | 3%nat => Some OSError
                  | _ => None
                  end)
        (fun _ => (x32, x00)) (fun _ => 1 # 1000)%Q.

(** A bus on which every transaction fails. *)
Definition dead_env : Env :=
  mkEnv (fun _ => Some OSError) (fun _ => (x32, x00)) (fun _ => 1 # 1000)%Q.

(** The device after power-on: shut down, gain 1, 100 ms. *)
Definition power_on : World := mkWorld 0x0001 0 0 0 [].

(** The device with gain 2 and 800 ms latched, as a ranging in the dark
    leaves it. *)
Definition most_sensitive : World := mkWorld 0x08C0 0 0 0 [].

(** The device with the undefined integration-time code 4 latched. *)
Definition undefined_it : World := mkWorld 0x0100 0 0 0 [].

(** The device with 400 ms latched. *)
Definition at_400ms : World := mkWorld 0x0080 0 0 0 [].


Module VEML7700.

Section Driver.

Variable env : Env.

(** *** Primitive effects *)

(** One effect happened: time passes, the effect is logged. *)
Definition advance (dt : Q) (ev : event) (w : World) : World :=
  mkWorld (conf0 w) (last_read w) (clock w + dt) (S (tick w)) (log w ++ [ev]).

(** A bus read transaction ([write_then_readinto]) of a 16-bit register. *)
Definition bus_read (r : register) : M Z :=
  fun w =>
    let n := tick w in
    match fault env n with
    | Some e => (Raise e, advance (elapse env n) (EvBusFault e) w)
    | None =>
        let v := match r with
                 | REG_ALS_CONF_0 => conf0 w
                 | REG_ALS => unpack_H (light_bytes env n)
                 end in
        (Ok v, advance (elapse env n) (EvBusRead (register_address r) v) w)
    end.

(** A bus write transaction of a 16-bit register; the data registers are
    read-only on the device. *)
Definition bus_write (r : register) (v : Z) : M unit :=
  fun w =>
    let n := tick w in
    match fault env n with
    | Some e => (Raise e, advance (elapse env n) (EvBusFault e) w)
    | None =>
        let w' := advance (elapse env n) (EvBusWrite (register_address r) v) w in
        (Ok tt,
         match r with
         | REG_ALS_CONF_0 =>
             mkWorld v (last_read w') (clock w') (tick w') (log w')
         | REG_ALS => w'
         end)
    end.

(** [RWBits.__get__]: one read transaction, then the field is cut out. *)
Definition rwbits_get (num_bits : Z) (r : register) (lowest_bit : Z) : M Z :=
  reg <- bus_read r ;;
  ret (field_get reg num_bits lowest_bit).

(** [RWBits.__set__] and [RWBit.__set__]: read, modify, write. *)
Definition rwbits_set (num_bits : Z) (r : register) (lowest_bit value : Z)
  : M unit :=
  reg <- bus_read r ;;
  bus_write r (field_set reg num_bits lowest_bit value).

(** [time.monotonic()]. *)
Definition monotonic : M Q :=
  fun w => (Ok (clock w),
            advance (elapse env (tick w)) (EvClock (clock w)) w).

(** [time.sleep(secs)]: a negative duration is a [ValueError]. *)
Definition sleep (secs : Q) : M unit :=
  fun w =>
    if Qltb secs 0 then (Raise ValueError, w)
    else (Ok tt, advance (secs + elapse env (tick w)) (EvSleep secs) w).

Definition get_last_read : M Q := fun w => (Ok (last_read w), w).

Definition set_last_read (t : Q) : M unit :=
  fun w => (Ok tt, mkWorld (conf0 w) t (clock w) (tick w) (log w)).

(** *** Register attributes of the class *)

(** [light = ROUnaryStruct(0x04, "<H")]. *)
Definition light : M Z := bus_read REG_ALS.

(** [light_shutdown = RWBit(0x00, 0, register_width=2)], written. *)
Definition set_light_shutdown (value : bool) : M unit :=
  rwbits_set 1 REG_ALS_CONF_0 0 (if value then 1 else 0).

(** [light_gain = RWBits(2, 0x00, 11, register_width=2)]. *)
Definition light_gain : M Z := rwbits_get 2 REG_ALS_CONF_0 11.
Definition set_light_gain (value : Z) : M unit :=
  rwbits_set 2 REG_ALS_CONF_0 11 value.

(** [light_integration_time = RWBits(4, 0x00, 6, register_width=2)]. *)
Definition light_integration_time : M Z := rwbits_get 4 REG_ALS_CONF_0 6.
Definition set_light_integration_time (value : Z) : M unit :=
  rwbits_set 4 REG_ALS_CONF_0 6 value.

(** *** Methods *)

(** [milliseconds()]. *)
Definition milliseconds : M Q :=
  s <- monotonic ;;
  ret (s * 1000)%Q.

(** The body of one [try] in [__init__]. *)
Definition enable_sequence : M unit :=
  set_light_gain ALS_GAIN_1_8 ;;;
  set_light_shutdown false.

(** [for _ in range(n): try: ...; break / except OSError: pass /
     else: raise RuntimeError]. *)
Fixpoint enable_retry (attempts : nat) : M unit :=
  match attempts with
  | O => raise RuntimeError
  | S attempts' =>
      try_except enable_sequence OSError (enable_retry attempts')
  end.

(** [__init__], from the retry loop on (the bus device object is built by
    the bus library before it). *)
Definition __init__ : M unit :=
  enable_retry 3 ;;;
  now <- milliseconds ;;
  set_last_read now.

(** [integration_time_value()]. *)
Definition integration_time_value : M Z :=
  integration_time <- light_integration_time ;;
  match dict_get integration_time_values integration_time with
  | Some v => ret v
  | None => raise KeyError
  end.

(** [gain_value()]. *)
Definition gain_value : M float :=
  gain <- light_gain ;;
  match dict_get gain_values gain with
  | Some v => ret v
  | None => raise KeyError
  end.

Definition resolution_at_max : float := 0.0042%float.
Definition gain_max : float := 2%float.
Definition integration_time_max : Z := 800.

(** The value of the [return] expression of [resolution()]. *)
Definition resolution_formula (t : Z) (g : float) : float :=
  (resolution_at_max
   * (float_of_Z integration_time_max / float_of_Z t)
   * (gain_max / g))%float.

(** [resolution()]; the [and] of the test reads the integration time only
    when the gain is the maximum. *)
Definition resolution : M float :=
  g <- gain_value ;;
  at_max <- (if PrimFloat.eqb g gain_max
             then t <- integration_time_value ;;
                  ret (Z.eqb t integration_time_max)
             else ret false) ;;
  if at_max then ret resolution_at_max
  else
    t <- integration_time_value ;;
    g' <- gain_value ;;
    ret (resolution_formula t g').

(** [compute_lux(als, use_correction)]. *)
Definition compute_lux (als : Z) (use_correction : bool) : M float :=
  r <- resolution ;;
  let lux := (r * float_of_Z als)%float in
  ret (if use_correction then correction lux else lux).

(** The [lux] property. *)
Definition lux : M float :=
  r <- resolution ;;
  l <- light ;;
  ret (r * float_of_Z l)%float.

(** [_read_als_wait()]. *)
Definition _read_als_wait : M Z :=
  t <- integration_time_value ;;
  let time_to_wait := inject_Z (2 * t) in
  now <- milliseconds ;;
  lr <- get_last_read ;;
  let time_waited := (now - lr)%Q in
  (if Qltb time_waited time_to_wait
   then sleep ((time_to_wait - time_waited) / 1000)%Q
   else ret tt) ;;;
  now' <- milliseconds ;;
  set_last_read now' ;;;
  light.

(** [wait_autolux(wait_time)]. *)
Definition wait_autolux (wait_time : Q) : M unit :=
  t <- integration_time_value ;;
  let minimum_wait_time := (inject_Z t / 1000)%Q in
  let actual_wait_time := py_max minimum_wait_time wait_time in
  sleep actual_wait_time.

(** [seq[i]] for a non-negative index. *)
Definition list_item (l : list Z) (i : nat) : M Z :=
  match nth_error l i with
  | Some x => ret x
  | None => raise IndexError
  end.

(** [seq.index(x)], the position thrown away as the source does. *)
Definition index_discarded (l : list Z) (x : Z) : M unit :=
  match list_index l x with
  | Some _ => ret tt
  | None => raise ValueError
  end.

(** The local variables of [autolux]. *)
Record locals : Type := mkLocals {
  gain_index : nat;
  it_index : nat;
  use_correction : bool;
  als : Z
}.

(** The test of the low-light [while]. *)
Definition low_continue (gi it : nat) (a : Z) : bool :=
  (a <=? 100) && negb ((gi =? 3)%nat && (it =? 5)%nat).

(** The [if]/[elif] of the low-light loop body: the indices after it. *)
Definition low_adjust (gi it : nat) : M (nat * nat) :=
  if (gi <? 3)%nat then
    let gi' := S gi in
    v <- list_item gain_settings gi' ;;
    set_light_gain v ;;;
    ret (gi', it)
  else if (it <? 5)%nat then
    let it' := S it in
    v <- list_item integration_time_settings it' ;;
    set_light_integration_time v ;;;
    ret (gi, it')
  else ret (gi, it).

(** The low-light [while]; [fuel] bounds the number of iterations. *)
Fixpoint low_loop (fuel : nat) (gi it : nat) (a : Z) : M locals :=
  if low_continue gi it a then
    match fuel with
    | O => out_of_fuel
    | S fuel' =>
        idx <- low_adjust gi it ;;
        a' <- _read_als_wait ;;
        low_loop fuel' (fst idx) (snd idx) a'
    end
  else ret (mkLocals gi it false a).

(** The high-light [while], by recursion on [it_index], which it counts
    down. *)
Fixpoint high_loop (gi it : nat) (a : Z) : M locals :=
  if a >? 10000 then
    match it with
    | O => ret (mkLocals gi it true a)
    | S it' =>
        v <- list_item integration_time_settings it' ;;
        set_light_integration_time v ;;;
        a' <- _read_als_wait ;;
        high_loop gi it' a'
    end
  else ret (mkLocals gi it true a).

(** [autolux] up to its first guarded reading: the two [index] calls,
    whose results the source drops, and the reading. *)
Definition autolux_first_read : M Z :=
  g <- light_gain ;;
  index_discarded gain_settings g ;;;
  it <- light_integration_time ;;
  index_discarded integration_time_settings it ;;;
  _read_als_wait.

(** [autolux] up to its [return]: the local variables at that point. *)
Definition autolux_ranging (fuel : nat) : M locals :=
  let gain_index := 0%nat in
  let it_index := 2%nat in
  a <- autolux_first_read ;;
  if a <=? 100 then low_loop fuel gain_index it_index a
  else high_loop gain_index it_index a.

(** The [autolux] property. *)
Definition autolux (fuel : nat) : M float :=
  l <- autolux_ranging fuel ;;
  compute_lux (als l) (use_correction l).

(** *** Observations used by the statements *)

(** The gain and integration-time codes latched in the device. *)
Definition gain_code (w : World) : Z := field_get (conf0 w) 2 11.
Definition it_code (w : World) : Z := field_get (conf0 w) 4 6.

(** The shutdown bit of the device. *)
Definition shutdown_bit (w : World) : Z := field_get (conf0 w) 1 0.

(** The bus never fails. *)
Definition bus_ok : Prop := forall n, fault env n = None.

(** No operation takes negative time. *)
Definition time_flows : Prop := forall n, (0 <= elapse env n)%Q.

(** The integration-time field holds one of the six defined codes. *)
Definition it_defined (c : Z) : bool :=
  match dict_get integration_time_values c with
  | Some _ => true
  | None => false
  end.

(** Is the event a read of the ALS data register? *)
Definition is_als_read (ev : event) : bool :=
  match ev with
  | EvBusRead addr _ => addr =? register_address REG_ALS
  | _ => false
  end.

(** The number of raw readings in a log. *)
Definition als_reads (l : list event) : nat := length (filter is_als_read l).

(** The raw reading taken last in a log. *)
Definition last_als (l : list event) : option Z :=
  fold_left (fun acc ev =>
               match ev with
               | EvBusRead addr v =>
                   if addr =? register_address REG_ALS then Some v else acc
               | _ => acc
               end) l None.

(** The world after [self.last_read = self.milliseconds()]. *)
Definition stamped (w : World) : World :=
  mkWorld (conf0 w) (clock w * 1000)%Q (clock w + elapse env (tick w))%Q
          (S (tick w)) (log w ++ [EvClock (clock w)]).

(** One iteration of the low-light loop, as a relation on the local
    variables and the world. *)
Definition low_iteration (s s' : nat * nat * Z * World) : Prop :=
  let '(gi, it, a, w) := s in
  let '(gi', it', a', w') := s' in
  low_continue gi it a = true /\
  exists w1, low_adjust gi it w = (Ok (gi', it'), w1) /\
             _read_als_wait w1 = (Ok a', w').

(** One iteration of the high-light loop. *)
Definition high_iteration (s s' : nat * Z * World) : Prop :=
  let '(it, a, w) := s in
  let '(it', a', w') := s' in
  (a >? 10000) = true /\ (0 < it)%nat /\
  exists v w1, nth_error integration_time_settings (Nat.pred it) = Some v /\
               set_light_integration_time v w = (Ok tt, w1) /\
               it' = Nat.pred it /\
               _read_als_wait w1 = (Ok a', w').


(** The world after one successful read transaction of ALS_CONF_0. *)
Definition after_conf_read (w : World) : World :=
  advance (elapse env (tick w))
          (EvBusRead (register_address REG_ALS_CONF_0) (conf0 w)) w.

(** The world after a successful read-modify-write of a field of
    ALS_CONF_0. *)
Definition after_field_write (num_bits lowest_bit value : Z) (w : World)
  : World :=
  let w1 := after_conf_read w in
  let v := field_set (conf0 w) num_bits lowest_bit value in
  mkWorld v (last_read w1) (clock w1 + elapse env (tick w1))%Q (S (tick w1))
          (log w1 ++ [EvBusWrite (register_address REG_ALS_CONF_0) v]).


(** Is the event a failed bus transaction? *)
Definition is_fault (ev : event) : bool :=
  match ev with
  | EvBusFault _ => true
  | _ => false
  end.

(** No failed bus transaction in a list of events. *)
Definition no_fault (evs : list event) : bool :=
  forallb (fun ev => negb (is_fault ev)) evs.


(** A call only adds to the log, and a failed bus transaction is the last
    thing it does: the exception of the transaction is what the call
    raises. *)
Definition fault_stops {A} (m : M A) : Prop :=
  forall w,
  exists evs,
    log (snd (m w)) = log w ++ evs /\
    (no_fault evs = true \/
     exists pre e,
       evs = pre ++ [EvBusFault e] /\ no_fault pre = true /\
       fst (m w) = Raise e).

(** A call leaves an observation of the world as it was, however it
    ends. *)
Definition keeps {T A} (f : World -> T) (m : M A) : Prop :=
  forall w, f (snd (m w)) = f w.


(** ** Proofs *)

(** *** Bit fields *)

Lemma testbit_field_get r nb lo n :
  0 <= lo -> 0 <= nb -> 0 <= n ->
  Z.testbit (field_get r nb lo) n = Z.testbit r (n + lo) && (n <? nb).
Proof.
  intros Hlo Hnb Hn. unfold field_get, bit_mask.
  rewrite Z.shiftr_spec, Z.land_spec, Z.shiftl_spec by lia.
  replace (n + lo - lo) with n by lia.
  rewrite Z.testbit_ones by lia.
  replace (0 <=? n) with true by (symmetry; apply Z.leb_le; lia).
  reflexivity.
Qed.

Lemma testbit_small v nb m :
  0 <= v < 2 ^ nb -> 0 <= nb <= m -> Z.testbit v m = false.
Proof.
  intros Hv Hm. rewrite <- (Z.mod_small v (2 ^ nb)) by lia.
  apply Z.mod_pow2_bits_high. lia.
Qed.

Lemma testbit_field_set r nb lo v n :
  0 <= lo -> 0 <= nb -> 0 <= n ->
  Z.testbit (field_set r nb lo v) n =
  ((Z.testbit r n && negb ((lo <=? n) && (n <? lo + nb)))
   || Z.testbit v (n - lo)) && (n <? 16).
Proof.
  intros Hlo Hnb Hn. unfold field_set, bit_mask.
  change 0xFFFF with (Z.ones 16).
  rewrite Z.land_spec, Z.lor_spec, Z.land_spec, Z.lnot_spec by lia.
  rewrite !Z.shiftl_spec by lia.
  rewrite !Z.testbit_ones by lia.
  replace (0 <=? n) with true by (symmetry; apply Z.leb_le; lia).
  destruct (Z.leb_spec lo n), (Z.ltb_spec n (lo + nb)), (Z.ltb_spec (n - lo) nb),
    (Z.leb_spec 0 (n - lo)); try lia; simpl; reflexivity.
Qed.

Lemma field_get_set_same r nb lo v :
  0 <= lo -> 0 <= nb -> lo + nb <= 16 -> 0 <= v < 2 ^ nb ->
  field_get (field_set r nb lo v) nb lo = v.
Proof.
  intros Hlo Hnb Hw Hv. apply Z.bits_inj'. intros n Hn.
  rewrite testbit_field_get, testbit_field_set by lia.
  replace (n + lo - lo) with n by lia.
  destruct (Z.ltb_spec n nb) as [Hlt | Hge].
  - replace (lo <=? n + lo) with true by (symmetry; apply Z.leb_le; lia).
    replace (n + lo <? lo + nb) with true by (symmetry; apply Z.ltb_lt; lia).
    replace (n + lo <? 16) with true by (symmetry; apply Z.ltb_lt; lia).
    simpl. rewrite !andb_true_r, andb_false_r. reflexivity.
  - rewrite andb_false_r. symmetry. apply (testbit_small v nb); lia.
Qed.

Lemma field_get_set_other r nb lo v nb' lo' :
  0 <= lo -> 0 <= nb -> 0 <= lo' -> 0 <= nb' -> lo' + nb' <= 16 ->
  lo + nb <= lo' \/ lo' + nb' <= lo ->
  0 <= v < 2 ^ nb ->
  field_get (field_set r nb lo v) nb' lo' = field_get r nb' lo'.
Proof.
  intros Hlo Hnb Hlo' Hnb' Hw Hdis Hv. apply Z.bits_inj'. intros n Hn.
  rewrite !testbit_field_get, testbit_field_set by lia.
  destruct (Z.ltb_spec n nb') as [Hlt | Hge]; [| rewrite !andb_false_r; reflexivity].
  rewrite !andb_true_r.
  replace (n + lo' <? 16) with true by (symmetry; apply Z.ltb_lt; lia).
  rewrite andb_true_r.
  assert (Hv0 : Z.testbit v (n + lo' - lo) = false).
  { destruct Hdis.
    - apply (testbit_small v nb); lia.
    - apply Z.testbit_neg_r. lia. }
  rewrite Hv0, orb_false_r.
  replace ((lo <=? n + lo') && (n + lo' <? lo + nb)) with false.
  - simpl. now rewrite andb_true_r.
  - symmetry. apply andb_false_iff.
    destruct Hdis; [right; apply Z.ltb_ge; lia | left; apply Z.leb_gt; lia].
Qed.

Lemma field_get_range r nb lo :
  0 <= lo -> 0 <= nb -> 0 <= field_get r nb lo < 2 ^ nb.
Proof.
  intros Hlo Hnb.
  assert (E : field_get r nb lo = Z.land (Z.shiftr r lo) (Z.ones nb)).
  { apply Z.bits_inj'. intros n Hn.
    rewrite testbit_field_get, Z.land_spec, Z.shiftr_spec, Z.testbit_ones by lia.
    replace (0 <=? n) with true by (symmetry; apply Z.leb_le; lia).
    reflexivity. }
  rewrite E, Z.land_ones by lia.
  apply Z.mod_pos_bound. apply Z.pow_pos_nonneg; lia.
Qed.

(** *** Booleans and rationals *)

Lemma Qltb_true a b : Qltb a b = true <-> (a < b)%Q.
Proof.
  unfold Qltb. rewrite negb_true_iff. split.
  - intros H. apply Qnot_le_lt. intros Hle.
    apply Qle_bool_iff in Hle. congruence.
  - intros H. destruct (Qle_bool b a) eqn:E; [| reflexivity].
    apply Qle_bool_iff in E. apply Qlt_not_le in H. contradiction.
Qed.

Lemma Qltb_false a b : Qltb a b = false <-> (b <= a)%Q.
Proof.
  unfold Qltb. rewrite negb_false_iff. apply Qle_bool_iff.
Qed.

Lemma py_max_ge_l a b : (a <= py_max a b)%Q.
Proof.
  unfold py_max. destruct (Qltb a b) eqn:E.
  - apply Qltb_true in E. apply Qlt_le_weak, E.
  - apply Qle_refl.
Qed.

Lemma py_max_ge_r a b : (b <= py_max a b)%Q.
Proof.
  unfold py_max. destruct (Qltb a b) eqn:E.
  - apply Qle_refl.
  - apply Qltb_false in E. exact E.
Qed.

(** *** The logs *)

Lemma als_reads_app l l' : als_reads (l ++ l') = (als_reads l + als_reads l')%nat.
Proof.
  unfold als_reads. now rewrite filter_app, length_app.
Qed.

Lemma last_als_snoc l ev :
  last_als (l ++ [ev]) =
  match ev with
  | EvBusRead addr v =>
      if addr =? register_address REG_ALS then Some v else last_als l
  | _ => last_als l
  end.
Proof.
  unfold last_als. rewrite fold_left_app. reflexivity.
Qed.

(** *** The integration-time table *)

Lemma it_code_range w : 0 <= it_code w < 16.
Proof. apply (field_get_range (conf0 w) 4 6); lia. Qed.

Lemma gain_code_range w : 0 <= gain_code w < 4.
Proof. apply (field_get_range (conf0 w) 2 11); lia. Qed.

(** A defined integration-time code is one of the six constants, with its
    value. *)
Lemma integration_time_values_inv c t :
  dict_get integration_time_values c = Some t ->
  (c = ALS_25MS /\ t = 25) \/ (c = ALS_50MS /\ t = 50) \/
  (c = ALS_100MS /\ t = 100) \/ (c = ALS_200MS /\ t = 200) \/
  (c = ALS_400MS /\ t = 400) \/ (c = ALS_800MS /\ t = 800).
Proof.
  unfold integration_time_values, dict_get.
  repeat match goal with
         | |- context [Z.eqb ?a c] => destruct (Z.eqb_spec a c)
         end; intros H; inversion H; subst; tauto.
Qed.

Lemma integration_time_values_pos c t :
  dict_get integration_time_values c = Some t -> 25 <= t <= 800.
Proof.
  intros H. apply integration_time_values_inv in H.
  unfold ALS_25MS, ALS_50MS, ALS_100MS, ALS_200MS, ALS_400MS, ALS_800MS in H.
  lia.
Qed.

Lemma it_defined_true c :
  it_defined c = true -> exists t, dict_get integration_time_values c = Some t.
Proof.
  unfold it_defined. destruct (dict_get integration_time_values c) as [t |].
  - intros _. now exists t.
  - discriminate.
Qed.

Lemma gain_values_total c :
  0 <= c < 4 -> exists g, dict_get gain_values c = Some g.
Proof.
  intros H.
  assert (C : c = 0 \/ c = 1 \/ c = 2 \/ c = 3) by lia.
  destruct C as [-> | [-> | [-> | ->]]]; eexists; reflexivity.
Qed.

Lemma gain_settings_index c :
  0 <= c < 4 -> list_index gain_settings c <> None.
Proof.
  intros H.
  assert (C : c = 0 \/ c = 1 \/ c = 2 \/ c = 3) by lia.
  destruct C as [-> | [-> | [-> | ->]]]; discriminate.
Qed.

Lemma integration_time_settings_index c :
  list_index integration_time_settings c <> None <-> it_defined c = true.
Proof.
  unfold it_defined, integration_time_settings, integration_time_values,
    list_index, dict_get.
  repeat match goal with
         | |- context [Z.eqb ?a c] => destruct (Z.eqb_spec a c)
         end; split; congruence.
Qed.


(** *** The register attributes on a bus that works *)

Lemma rwbits_get_ok nb lo w :
  bus_ok ->
  rwbits_get nb REG_ALS_CONF_0 lo w
  = (Ok (field_get (conf0 w) nb lo), after_conf_read w).
Proof.
  intros Hbus. unfold rwbits_get, bind, bus_read. rewrite Hbus. reflexivity.
Qed.

Lemma rwbits_set_ok nb lo v w :
  bus_ok ->
  rwbits_set nb REG_ALS_CONF_0 lo v w = (Ok tt, after_field_write nb lo v w).
Proof.
  intros Hbus. unfold rwbits_set, bind, bus_read, bus_write.
  rewrite Hbus. cbn [tick advance]. rewrite Hbus. reflexivity.
Qed.

Lemma light_gain_ok w :
  bus_ok -> light_gain w = (Ok (gain_code w), after_conf_read w).
Proof. apply rwbits_get_ok. Qed.

Lemma light_integration_time_ok w :
  bus_ok -> light_integration_time w = (Ok (it_code w), after_conf_read w).
Proof. apply rwbits_get_ok. Qed.

Lemma integration_time_value_ok w t :
  bus_ok ->
  dict_get integration_time_values (it_code w) = Some t ->
  integration_time_value w = (Ok t, after_conf_read w).
Proof.
  intros Hbus Ht. unfold integration_time_value, bind.
  rewrite light_integration_time_ok, Ht by assumption. reflexivity.
Qed.

Lemma integration_time_value_undefined w :
  bus_ok ->
  dict_get integration_time_values (it_code w) = None ->
  integration_time_value w = (Raise KeyError, after_conf_read w).
Proof.
  intros Hbus Ht. unfold integration_time_value, bind.
  rewrite light_integration_time_ok, Ht by assumption. reflexivity.
Qed.

Lemma gain_value_ok w g :
  bus_ok ->
  dict_get gain_values (gain_code w) = Some g ->
  gain_value w = (Ok g, after_conf_read w).
Proof.
  intros Hbus Hg. unfold gain_value, bind.
  rewrite light_gain_ok, Hg by assumption. reflexivity.
Qed.

Lemma conf0_after_conf_read w : conf0 (after_conf_read w) = conf0 w.
Proof. reflexivity. Qed.

Lemma gain_code_after_field_write_gain v w :
  0 <= v < 4 -> gain_code (after_field_write 2 11 v w) = v.
Proof.
  intros Hv. unfold gain_code, after_field_write. cbn [conf0].
  apply field_get_set_same; lia.
Qed.

Lemma it_code_after_field_write_gain v w :
  0 <= v < 4 -> it_code (after_field_write 2 11 v w) = it_code w.
Proof.
  intros Hv. unfold it_code, after_field_write. cbn [conf0].
  apply field_get_set_other; lia.
Qed.

Lemma it_code_after_field_write_it v w :
  0 <= v < 16 -> it_code (after_field_write 4 6 v w) = v.
Proof.
  intros Hv. unfold it_code, after_field_write. cbn [conf0].
  apply field_get_set_same; lia.
Qed.

Lemma gain_code_after_field_write_it v w :
  0 <= v < 16 -> gain_code (after_field_write 4 6 v w) = gain_code w.
Proof.
  intros Hv. unfold gain_code, after_field_write. cbn [conf0].
  apply field_get_set_other; lia.
Qed.

Lemma als_reads_after_conf_read w :
  als_reads (log (after_conf_read w)) = als_reads (log w).
Proof.
  unfold after_conf_read, advance. cbn [log].
  rewrite als_reads_app. cbn. lia.
Qed.

Lemma als_reads_after_field_write nb lo v w :
  als_reads (log (after_field_write nb lo v w)) = als_reads (log w).
Proof.
  unfold after_field_write. cbn [log].
  rewrite als_reads_app, als_reads_after_conf_read. cbn. lia.
Qed.

Lemma last_als_after_conf_read w :
  last_als (log (after_conf_read w)) = last_als (log w).
Proof.
  unfold after_conf_read, advance. cbn [log].
  now rewrite last_als_snoc.
Qed.

Lemma last_als_after_field_write nb lo v w :
  last_als (log (after_field_write nb lo v w)) = last_als (log w).
Proof.
  unfold after_field_write. cbn [log].
  now rewrite last_als_snoc, last_als_after_conf_read.
Qed.


(** *** Resolution and lux *)

Lemma gain_values_inv c g :
  dict_get gain_values c = Some g ->
  (c = ALS_GAIN_2 /\ g = 2%float) \/ (c = ALS_GAIN_1 /\ g = 1%float) \/
  (c = ALS_GAIN_1_4 /\ g = 0.25%float) \/ (c = ALS_GAIN_1_8 /\ g = 0.125%float).
Proof.
  unfold gain_values, dict_get.
  repeat match goal with
         | |- context [Z.eqb ?a c] => destruct (Z.eqb_spec a c)
         end; intros H; inversion H; subst; tauto.
Qed.

(** Below the maximum gain the test of [resolution] stops at the gain, and
    the formula is evaluated. *)
Lemma resolution_low_gain w g t :
  bus_ok ->
  dict_get gain_values (gain_code w) = Some g ->
  dict_get integration_time_values (it_code w) = Some t ->
  PrimFloat.eqb g gain_max = false ->
  resolution w
  = (Ok (resolution_formula t g),
     after_conf_read (after_conf_read (after_conf_read w))).
Proof.
  intros Hbus Hg Ht Hne. unfold resolution, bind.
  rewrite (gain_value_ok w g Hbus Hg), Hne. cbn [ret].
  rewrite (integration_time_value_ok (after_conf_read w) t Hbus Ht).
  rewrite (gain_value_ok (after_conf_read (after_conf_read w)) g Hbus Hg).
  reflexivity.
Qed.

(** At the maximum gain the test reads the integration time as well. *)
Lemma resolution_max_gain w g t :
  bus_ok ->
  dict_get gain_values (gain_code w) = Some g ->
  dict_get integration_time_values (it_code w) = Some t ->
  PrimFloat.eqb g gain_max = true ->
  resolution w
  = if t =? integration_time_max
    then (Ok resolution_at_max, after_conf_read (after_conf_read w))
    else (Ok (resolution_formula t g),
          after_conf_read (after_conf_read (after_conf_read (after_conf_read w)))).
Proof.
  intros Hbus Hg Ht He. unfold resolution, bind.
  rewrite (gain_value_ok w g Hbus Hg), He.
  rewrite (integration_time_value_ok (after_conf_read w) t Hbus Ht). cbn [ret].
  destruct (t =? integration_time_max); [reflexivity |].
  rewrite (integration_time_value_ok (after_conf_read (after_conf_read w)) t
             Hbus Ht).
  rewrite (gain_value_ok
             (after_conf_read (after_conf_read (after_conf_read w))) g Hbus Hg).
  reflexivity.
Qed.

(** C5: with gain value [g] and integration time [t] latched in the device
    ([g] is then one of 0.125, 0.25, 1, 2 and [t] one of 25, 50, 100, 200,
    400, 800), [resolution()] returns [0.0042 * (800 / t) * (2 / g)];
    at [g = 2] and [t = 800] it returns the constant 0.0042 after the two
    register reads of its test, the reads of the formula not being made. *)
Theorem resolution_value w g t :
  bus_ok ->
  dict_get gain_values (gain_code w) = Some g ->
  dict_get integration_time_values (it_code w) = Some t ->
  In g [0.125; 0.25; 1; 2]%float /\
  In t [25; 50; 100; 200; 400; 800] /\
  (g = 2%float /\ t = 800 ->
   resolution w = (Ok 0.0042%float, after_conf_read (after_conf_read w))) /\
  (~ (g = 2%float /\ t = 800) ->
   fst (resolution w) = Ok (0.0042 * (800 / float_of_Z t) * (2 / g))%float).
Proof.
  intros Hbus Hg Ht.
  pose proof (gain_values_inv _ _ Hg) as Cg.
  pose proof (integration_time_values_inv _ _ Ht) as Ct.
  split; [| split; [| split]].
  - cbn [In]. intuition.
  - cbn [In]. intuition.
  - intros [-> ->].
    rewrite (resolution_max_gain w _ _ Hbus Hg Ht) by reflexivity.
    reflexivity.
  - intros Hnot.
    destruct Cg as [[_ ->] | [[_ ->] | [[_ ->] | [_ ->]]]].
    + rewrite (resolution_max_gain w _ _ Hbus Hg Ht) by reflexivity.
      destruct (Z.eqb_spec t integration_time_max) as [E | E].
      * exfalso. apply Hnot. split; [reflexivity | exact E].
      * reflexivity.
    + rewrite (resolution_low_gain w _ _ Hbus Hg Ht) by reflexivity.
      reflexivity.
    + rewrite (resolution_low_gain w _ _ Hbus Hg Ht) by reflexivity.
      reflexivity.
    + rewrite (resolution_low_gain w _ _ Hbus Hg Ht) by reflexivity.
      reflexivity.
Qed.

(** At the reference point the formula rounds to the constant as well. *)
Lemma resolution_formula_at_max :
  resolution_formula 800 2 = resolution_at_max.
Proof. reflexivity. Qed.

(** C6: for a raw count in [0, 65535], when [resolution()] returns [r],
    [compute_lux(raw, False)] returns [r * raw] and
    [compute_lux(raw, True)] returns the correction polynomial
    [(((6.0135e-13 * l - 9.3924e-9) * l + 8.1488e-5) * l + 1.0023) * l]
    at [l = r * raw], each after the same effects as [resolution()]. *)
Theorem compute_lux_value w raw r w' :
  0 <= raw <= 65535 ->
  resolution w = (Ok r, w') ->
  compute_lux raw false w = (Ok (r * float_of_Z raw)%float, w') /\
  compute_lux raw true w
  = (let l := (r * float_of_Z raw)%float in
     Ok ((((6.0135e-13 * l - 9.3924e-9) * l + 8.1488e-5) * l + 1.0023) * l)%float,
     w').
Proof.
  intros _ Hr. unfold compute_lux, bind. rewrite Hr. split; reflexivity.
Qed.


(** *** The timing guard *)

Lemma sleep_ok secs w :
  (0 <= secs)%Q ->
  sleep secs w
  = (Ok tt, advance (secs + elapse env (tick w)) (EvSleep secs) w).
Proof.
  intros H. unfold sleep.
  replace (Qltb secs 0) with false; [reflexivity |].
  symmetry. apply Qltb_false. exact H.
Qed.

(** [_read_als_wait()] on a working bus with a defined integration time,
    effect by effect. *)
Lemma read_als_wait_ok w t :
  bus_ok ->
  dict_get integration_time_values (it_code w) = Some t ->
  let w1 := after_conf_read w in
  let w2 := advance (elapse env (tick w1)) (EvClock (clock w1)) w1 in
  let time_to_wait := inject_Z (2 * t) in
  let time_waited := (clock w1 * 1000 - last_read w)%Q in
  let secs := ((time_to_wait - time_waited) / 1000)%Q in
  let w3 := if Qltb time_waited time_to_wait
            then advance (secs + elapse env (tick w2)) (EvSleep secs) w2
            else w2 in
  let w4 := stamped w3 in
  let a := unpack_H (light_bytes env (tick w4)) in
  _read_als_wait w
  = (Ok a, advance (elapse env (tick w4))
                   (EvBusRead (register_address REG_ALS) a) w4).
Proof.
  intros Hbus Ht. cbv zeta. unfold _read_als_wait, bind.
  rewrite (integration_time_value_ok w t Hbus Ht).
  unfold milliseconds at 1. unfold bind, monotonic, ret, get_last_read.
  cbn [last_read after_conf_read advance].
  destruct (Qltb _ _) eqn:Hlt.
  - rewrite sleep_ok.
    + unfold light, bus_read, set_last_read. cbn. rewrite Hbus. reflexivity.
    + apply Qltb_true in Hlt.
      apply Qle_shift_div_l; [reflexivity |]. lra.
  - unfold light, bus_read, set_last_read. cbn. rewrite Hbus. reflexivity.
Qed.


(** C7: on a working bus with integration time [t] latched,
    [_read_als_wait()] samples the clock ([now]); when the time since
    [last_read] is below [2 * t] it sleeps for exactly the difference, and
    not otherwise; it then stamps [last_read] with a second clock sample
    taken after the wait and before the ALS register is read, and returns
    that reading.  When time does not run backwards, [last_read] after the
    call is at least the time of the invocation, and at least [2 * t]
    after the previous [last_read]. *)
Theorem read_als_wait_timing w t :
  bus_ok ->
  dict_get integration_time_values (it_code w) = Some t ->
  exists now stamp a w',
    _read_als_wait w = (Ok a, w') /\
    let time_to_wait := inject_Z (2 * t) in
    let time_waited := (now * 1000 - last_read w)%Q in
    let must_wait := Qltb time_waited time_to_wait in
    let secs := ((time_to_wait - time_waited) / 1000)%Q in
    log w' = log w
             ++ [EvBusRead (register_address REG_ALS_CONF_0) (conf0 w);
                 EvClock now]
             ++ (if must_wait then [EvSleep secs] else [])
             ++ [EvClock stamp; EvBusRead (register_address REG_ALS) a] /\
    last_read w' = (stamp * 1000)%Q /\
    conf0 w' = conf0 w /\
    (time_flows ->
     (clock w <= now)%Q /\
     (if must_wait then now + secs <= stamp else now <= stamp)%Q /\
     (clock w * 1000 <= last_read w')%Q /\
     (last_read w + time_to_wait <= last_read w')%Q).
Proof.
  intros Hbus Ht.
  pose proof (read_als_wait_ok w t Hbus Ht) as E. cbv zeta in E.
  set (w1 := after_conf_read w) in *.
  set (w2 := advance (elapse env (tick w1)) (EvClock (clock w1)) w1) in *.
  set (ttw := inject_Z (2 * t)) in *.
  set (tw := (clock w1 * 1000 - last_read w)%Q) in *.
  set (secs := ((ttw - tw) / 1000)%Q) in *.
  set (w3 := if Qltb tw ttw
             then advance (secs + elapse env (tick w2)) (EvSleep secs) w2
             else w2) in *.
  exists (clock w1), (clock w3), (unpack_H (light_bytes env (tick (stamped w3)))).
  eexists. split; [exact E |]. cbv zeta.
  fold ttw. fold tw. fold secs.
  split; [| split; [| split]].
  - subst w3. destruct (Qltb tw ttw); cbn [log advance stamped];
      subst w2 w1; unfold after_conf_read; cbn [log advance];
      rewrite <- !app_assoc; reflexivity.
  - reflexivity.
  - subst w3. destruct (Qltb tw ttw); reflexivity.
  - intros Hflow.
    pose proof (Hflow (tick w)) as F0.
    pose proof (Hflow (tick w1)) as F1.
    pose proof (Hflow (tick w2)) as F2.
    assert (C1 : clock w1 = (clock w + elapse env (tick w))%Q) by reflexivity.
    assert (C2 : clock w2 = (clock w1 + elapse env (tick w1))%Q) by reflexivity.
    cbn [last_read advance stamped].
    destruct (Qltb tw ttw) eqn:Hlt; subst w3.
    + assert (C3 : clock (advance (secs + elapse env (tick w2)) (EvSleep secs) w2)
                   = (clock w2 + (secs + elapse env (tick w2)))%Q) by reflexivity.
      rewrite C3, C2, C1.
      assert (S1 : (secs * 1000 == ttw - tw)%Q)
        by (unfold secs; field).
      assert (TW : (tw == (clock w + elapse env (tick w)) * 1000 - last_read w)%Q)
        by (unfold tw; rewrite C1; reflexivity).
      apply Qltb_true in Hlt.
      repeat split; lra.
    + apply Qltb_false in Hlt.
      assert (TW : (tw == (clock w + elapse env (tick w)) * 1000 - last_read w)%Q)
        by (unfold tw; rewrite C1; reflexivity).
      rewrite C2, C1.
      repeat split; lra.
Qed.


(** C8: on a working bus with integration time [t] latched,
    [wait_autolux(wait_time)] reads the integration time and then sleeps
    once, for [max(wait_time, t / 1000)] seconds, whatever [wait_time] is;
    the sleep is no shorter than [wait_time] and no shorter than the
    integration time, and the call returns no earlier than that. *)
Theorem wait_autolux_sleeps w wait_time t :
  bus_ok ->
  dict_get integration_time_values (it_code w) = Some t ->
  exists secs w',
    wait_autolux wait_time w = (Ok tt, w') /\
    log w' = log w
             ++ [EvBusRead (register_address REG_ALS_CONF_0) (conf0 w);
                 EvSleep secs] /\
    (secs == Qmax wait_time (inject_Z t / 1000))%Q /\
    (wait_time <= secs)%Q /\
    (inject_Z t / 1000 <= secs)%Q /\
    (time_flows -> (clock w + secs <= clock w')%Q).
Proof.
  intros Hbus Ht.
  set (minimum := (inject_Z t / 1000)%Q).
  set (secs := py_max minimum wait_time).
  assert (Hmin : (0 <= minimum)%Q).
  { unfold minimum. apply Qle_shift_div_l; [reflexivity |].
    pose proof (integration_time_values_pos _ _ Ht) as Hpos.
    assert (H0 : (inject_Z 0 <= inject_Z t)%Q) by (rewrite <- Zle_Qle; lia).
    change (inject_Z 0) with 0%Q in H0. lra. }
  pose proof (py_max_ge_l minimum wait_time) as Hl.
  pose proof (py_max_ge_r minimum wait_time) as Hr.
  fold secs in Hl, Hr.
  exists secs. eexists. split; [| split; [| split; [| split; [| split]]]].
  - unfold wait_autolux, bind.
    rewrite (integration_time_value_ok w t Hbus Ht).
    fold minimum. fold secs. apply sleep_ok. lra.
  - cbn [log advance after_conf_read]. rewrite <- app_assoc. reflexivity.
  - unfold secs, py_max. destruct (Qltb minimum wait_time) eqn:E.
    + apply Qltb_true in E. symmetry. apply Q.max_l. lra.
    + apply Qltb_false in E. symmetry. apply Q.max_r. exact E.
  - exact Hr.
  - exact Hl.
  - intros Hflow. cbn [clock advance after_conf_read].
    pose proof (Hflow (tick w)) as F0.
    pose proof (Hflow (tick (after_conf_read w))) as F1.
    lra.
Qed.


(** *** Construction *)

Lemma enable_retry_success n w w1 :
  enable_sequence w = (Ok tt, w1) ->
  enable_retry (S n) w = (Ok tt, w1).
Proof.
  intros H. cbn [enable_retry]. unfold try_except. now rewrite H.
Qed.

Lemma enable_retry_oserror n w w1 :
  enable_sequence w = (Raise OSError, w1) ->
  enable_retry (S n) w = enable_retry n w1.
Proof.
  intros H. cbn [enable_retry]. unfold try_except. now rewrite H.
Qed.

Lemma enable_retry_other n w w1 e :
  e <> OSError ->
  enable_sequence w = (Raise e, w1) ->
  enable_retry (S n) w = (Raise e, w1).
Proof.
  intros He H. cbn [enable_retry]. unfold try_except. rewrite H.
  destruct e; try reflexivity. now elim He.
Qed.

Lemma init_after_enable w w' :
  enable_retry 3 w = (Ok tt, w') -> __init__ w = (Ok tt, stamped w').
Proof.
  intros H. unfold __init__, bind. rewrite H. reflexivity.
Qed.

Lemma init_raises w w' e :
  enable_retry 3 w = (Raise e, w') -> __init__ w = (Raise e, w').
Proof.
  intros H. unfold __init__, bind. now rewrite H.
Qed.

(** A completed enable sequence leaves the lowest gain latched and the
    shutdown bit cleared. *)
Lemma enable_sequence_sets w w1 :
  enable_sequence w = (Ok tt, w1) ->
  gain_code w1 = ALS_GAIN_1_8 /\ shutdown_bit w1 = 0 /\
  last_read w1 = last_read w.
Proof.
  unfold enable_sequence, set_light_gain, set_light_shutdown, rwbits_set,
    bind, bus_read, bus_write.
  destruct (fault env (tick w)); [discriminate |]. cbn [tick advance].
  destruct (fault env (S (tick w))); [discriminate |]. cbn [tick advance].
  destruct (fault env (S (S (tick w)))); [discriminate |]. cbn [tick advance].
  destruct (fault env (S (S (S (tick w))))); [discriminate |].
  intros H. inversion H; subst; clear H.
  unfold gain_code, shutdown_bit. cbn [conf0 last_read advance].
  split; [| split].
  - rewrite field_get_set_other by lia.
    apply field_get_set_same; unfold ALS_GAIN_1_8; lia.
  - apply field_get_set_same; lia.
  - reflexivity.
Qed.

Lemma enable_sequence_last_read w w1 o :
  enable_sequence w = (o, w1) -> last_read w1 = last_read w.
Proof.
  unfold enable_sequence, set_light_gain, set_light_shutdown, rwbits_set,
    bind, bus_read, bus_write.
  destruct (fault env (tick w)); [intros H; now inversion H |].
  cbn [tick advance].
  destruct (fault env (S (tick w))); [intros H; now inversion H |].
  cbn [tick advance].
  destruct (fault env (S (S (tick w)))); [intros H; now inversion H |].
  cbn [tick advance].
  destruct (fault env (S (S (S (tick w))))); intros H; now inversion H.
Qed.

(** C9: [__init__] runs the enable sequence (lowest gain, shutdown bit
    cleared) at most three times.  The attempt that completes is the last
    one: the only effect after it is the clock sample that seeds
    [last_read].  An attempt is repeated only after an [OSError]; any other
    exception leaves [__init__] at once.  After three [OSError]s
    [__init__] raises [RuntimeError] and [last_read] was never set. *)
Theorem init_retries w :
  (forall w1,
      enable_sequence w = (Ok tt, w1) ->
      __init__ w = (Ok tt, stamped w1) /\
      gain_code w1 = ALS_GAIN_1_8 /\ shutdown_bit w1 = 0 /\
      last_read (stamped w1) = (clock w1 * 1000)%Q) /\
  (forall w1 w2,
      enable_sequence w = (Raise OSError, w1) ->
      enable_sequence w1 = (Ok tt, w2) ->
      __init__ w = (Ok tt, stamped w2) /\
      gain_code w2 = ALS_GAIN_1_8 /\ shutdown_bit w2 = 0) /\
  (forall w1 w2 w3,
      enable_sequence w = (Raise OSError, w1) ->
      enable_sequence w1 = (Raise OSError, w2) ->
      enable_sequence w2 = (Ok tt, w3) ->
      __init__ w = (Ok tt, stamped w3) /\
      gain_code w3 = ALS_GAIN_1_8 /\ shutdown_bit w3 = 0) /\
  (forall w1 w2 w3,
      enable_sequence w = (Raise OSError, w1) ->
      enable_sequence w1 = (Raise OSError, w2) ->
      enable_sequence w2 = (Raise OSError, w3) ->
      __init__ w = (Raise RuntimeError, w3) /\
      last_read w3 = last_read w) /\
  (forall e w1,
      e <> OSError ->
      enable_sequence w = (Raise e, w1) ->
      __init__ w = (Raise e, w1)) /\
  (forall e w1 w2,
      e <> OSError ->
      enable_sequence w = (Raise OSError, w1) ->
      enable_sequence w1 = (Raise e, w2) ->
      __init__ w = (Raise e, w2)) /\
  (forall e w1 w2 w3,
      e <> OSError ->
      enable_sequence w = (Raise OSError, w1) ->
      enable_sequence w1 = (Raise OSError, w2) ->
      enable_sequence w2 = (Raise e, w3) ->
      __init__ w = (Raise e, w3)).
Proof.
  repeat apply conj.
  - intros w1 H1.
    pose proof (enable_sequence_sets _ _ H1) as (Hg & Hs & _).
    repeat split; try assumption.
    apply init_after_enable. now apply enable_retry_success.
  - intros w1 w2 H1 H2.
    pose proof (enable_sequence_sets _ _ H2) as (Hg & Hs & _).
    repeat split; try assumption.
    apply init_after_enable.
    rewrite (enable_retry_oserror _ _ _ H1). now apply enable_retry_success.
  - intros w1 w2 w3 H1 H2 H3.
    pose proof (enable_sequence_sets _ _ H3) as (Hg & Hs & _).
    repeat split; try assumption.
    apply init_after_enable.
    rewrite (enable_retry_oserror _ _ _ H1), (enable_retry_oserror _ _ _ H2).
    now apply enable_retry_success.
  - intros w1 w2 w3 H1 H2 H3. split.
    + apply init_raises.
      rewrite (enable_retry_oserror _ _ _ H1), (enable_retry_oserror _ _ _ H2),
        (enable_retry_oserror _ _ _ H3).
      reflexivity.
    + rewrite (enable_sequence_last_read _ _ _ H3),
        (enable_sequence_last_read _ _ _ H2).
      apply (enable_sequence_last_read _ _ _ H1).
  - intros e w1 He H1. apply init_raises.
    now apply enable_retry_other.
  - intros e w1 w2 He H1 H2. apply init_raises.
    rewrite (enable_retry_oserror _ _ _ H1). now apply enable_retry_other.
  - intros e w1 w2 w3 He H1 H2 H3. apply init_raises.
    rewrite (enable_retry_oserror _ _ _ H1), (enable_retry_oserror _ _ _ H2).
    now apply enable_retry_other.
Qed.


(** *** The guarded reading, as the loops see it *)

Lemma unpack_H_range b : 0 <= unpack_H b <= 65535.
Proof.
  unfold unpack_H.
  pose proof (Byte.to_N_bounded (fst b)) as H1.
  pose proof (Byte.to_N_bounded (snd b)) as H2.
  lia.
Qed.

Lemma read_als_wait_frame w :
  bus_ok ->
  it_defined (it_code w) = true ->
  exists a w',
    _read_als_wait w = (Ok a, w') /\
    conf0 w' = conf0 w /\
    (exists n, a = unpack_H (light_bytes env n)) /\
    als_reads (log w') = S (als_reads (log w)) /\
    last_als (log w') = Some a.
Proof.
  intros Hbus Hdef. apply it_defined_true in Hdef. destruct Hdef as [t Ht].
  pose proof (read_als_wait_ok w t Hbus Ht) as E. cbv zeta in E.
  eexists. eexists. split; [exact E |].
  split; [| split; [| split]].
  - cbn [conf0 advance stamped]. destruct (Qltb _ _); reflexivity.
  - eexists. reflexivity.
  - cbn [log advance stamped]. rewrite !als_reads_app.
    destruct (Qltb _ _); cbn [log advance after_conf_read];
      rewrite !als_reads_app; cbn; lia.
  - cbn [log advance]. rewrite last_als_snoc. reflexivity.
Qed.

(** *** The loop bodies *)

Lemma gain_settings_item gi :
  (gi < 3)%nat ->
  exists v, nth_error gain_settings (S gi) = Some v /\ 0 <= v < 4.
Proof.
  intros H. destruct gi as [| [| [| gi]]]; try lia;
    eexists; (split; [reflexivity |]);
    unfold ALS_GAIN_1_4, ALS_GAIN_1, ALS_GAIN_2; lia.
Qed.

Lemma integration_time_settings_item it :
  (it < 6)%nat ->
  exists v, nth_error integration_time_settings it = Some v /\
            0 <= v < 16 /\ it_defined v = true.
Proof.
  intros H. destruct it as [| [| [| [| [| [| it]]]]]]; try lia;
    eexists; (split; [reflexivity |]); (split; [| reflexivity]);
    unfold ALS_25MS, ALS_50MS, ALS_100MS, ALS_200MS, ALS_400MS, ALS_800MS;
    lia.
Qed.

Lemma low_adjust_gain gi it w :
  bus_ok ->
  (gi < 3)%nat ->
  exists v,
    nth_error gain_settings (S gi) = Some v /\
    low_adjust gi it w = (Ok (S gi, it), after_field_write 2 11 v w) /\
    gain_code (after_field_write 2 11 v w) = v /\
    it_code (after_field_write 2 11 v w) = it_code w.
Proof.
  intros Hbus Hgi.
  destruct (gain_settings_item gi Hgi) as (v & Hv & Hr).
  exists v. split; [exact Hv |]. split; [| split].
  - unfold low_adjust.
    replace (gi <? 3)%nat with true by (symmetry; apply Nat.ltb_lt; lia).
    unfold bind, list_item. rewrite Hv. cbn [ret].
    unfold set_light_gain. rewrite rwbits_set_ok by assumption. reflexivity.
  - now apply gain_code_after_field_write_gain.
  - now apply it_code_after_field_write_gain.
Qed.

Lemma low_adjust_it gi it w :
  bus_ok ->
  (3 <= gi)%nat -> (it < 5)%nat ->
  exists v,
    nth_error integration_time_settings (S it) = Some v /\
    low_adjust gi it w = (Ok (gi, S it), after_field_write 4 6 v w) /\
    it_code (after_field_write 4 6 v w) = v /\
    gain_code (after_field_write 4 6 v w) = gain_code w /\
    it_defined v = true.
Proof.
  intros Hbus Hgi Hit.
  destruct (integration_time_settings_item (S it)) as (v & Hv & Hr & Hd);
    [lia |].
  exists v. split; [exact Hv |]. split; [| split; [| split]].
  - unfold low_adjust.
    replace (gi <? 3)%nat with false by (symmetry; apply Nat.ltb_ge; lia).
    replace (it <? 5)%nat with true by (symmetry; apply Nat.ltb_lt; lia).
    unfold bind, list_item. rewrite Hv. cbn [ret].
    unfold set_light_integration_time.
    rewrite rwbits_set_ok by assumption. reflexivity.
  - now apply it_code_after_field_write_it.
  - now apply gain_code_after_field_write_it.
  - exact Hd.
Qed.



(** *** The low-light loop *)

Lemma low_continue_true gi it a :
  low_continue gi it a = true ->
  a <= 100 /\ ~ (gi = 3%nat /\ it = 5%nat).
Proof.
  unfold low_continue. rewrite andb_true_iff, negb_true_iff, andb_false_iff.
  rewrite Z.leb_le, !Nat.eqb_neq. intros [Ha Hn]. split; [exact Ha | lia].
Qed.

Lemma low_continue_false gi it a :
  low_continue gi it a = false ->
  100 < a \/ (gi = 3%nat /\ it = 5%nat).
Proof.
  unfold low_continue. rewrite andb_false_iff, negb_false_iff, andb_true_iff.
  rewrite Z.leb_gt, !Nat.eqb_eq. intros [Ha | Hn]; [left; lia | right; exact Hn].
Qed.

Lemma it_code_same_conf w w' :
  conf0 w' = conf0 w -> it_code w' = it_code w.
Proof. unfold it_code. now intros ->. Qed.

Lemma gain_code_same_conf w w' :
  conf0 w' = conf0 w -> gain_code w' = gain_code w.
Proof. unfold gain_code. now intros ->. Qed.

(** From indices within the two sequences the loop ends within
    [(3 - gain_index) + (5 - it_index)] iterations, each with one guarded
    reading. *)
Lemma low_loop_spec :
  bus_ok ->
  forall fuel gi it a w,
    (gi <= 3)%nat -> (it <= 5)%nat ->
    it_defined (it_code w) = true ->
    ((3 - gi) + (5 - it) <= fuel)%nat ->
    exists l w',
      low_loop fuel gi it a w = (Ok l, w') /\
      use_correction l = false /\
      (100 < als l \/ (gain_index l = 3%nat /\ it_index l = 5%nat)) /\
      (gi <= gain_index l <= 3)%nat /\ (it <= it_index l <= 5)%nat /\
      it_defined (it_code w') = true /\
      als_reads (log w')
      = (als_reads (log w) + ((gain_index l - gi) + (it_index l - it)))%nat /\
      (als l = a \/ exists n, als l = unpack_H (light_bytes env n)) /\
      (last_als (log w) = Some a -> last_als (log w') = Some (als l)).
Proof.
  intros Hbus. induction fuel as [| fuel IH]; intros gi it a w Hgi Hit Hdef Hfuel.
  - cbn [low_loop]. destruct (low_continue gi it a) eqn:C.
    + apply low_continue_true in C. lia.
    + apply low_continue_false in C.
      exists (mkLocals gi it false a), w. cbn.
      repeat split; auto; lia.
  - cbn [low_loop]. destruct (low_continue gi it a) eqn:C.
    + apply low_continue_true in C. destruct C as [Ha Hnot].
      destruct (Nat.lt_ge_cases gi 3) as [Hlt | Hge].
      * destruct (low_adjust_gain gi it w Hbus Hlt) as (v & Hv & E & Hg & Hi).
        set (w1 := after_field_write 2 11 v w) in *.
        assert (Hdef1 : it_defined (it_code w1) = true) by now rewrite Hi.
        destruct (read_als_wait_frame w1 Hbus Hdef1)
          as (a' & w2 & E2 & Hc2 & Hn2 & Hr2 & Hl2).
        assert (Hdef2 : it_defined (it_code w2) = true)
          by now rewrite (it_code_same_conf _ _ Hc2).
        destruct (IH (S gi) it a' w2) as
          (l & w' & E3 & Huc & Hex & Hgl & Hil & Hd' & Hrd & Hal & Hla);
          try assumption; try lia.
        exists l, w'. unfold bind. rewrite E. cbn [fst snd]. rewrite E2.
        split; [exact E3 |].
        split; [exact Huc |]. split; [exact Hex |].
        split; [lia |]. split; [lia |]. split; [exact Hd' |].
        split; [| split].
        -- rewrite Hrd, Hr2. unfold w1.
           rewrite als_reads_after_field_write. lia.
        -- right. destruct Hal as [-> | Hal]; [exact Hn2 | exact Hal].
        -- intros _. apply Hla. exact Hl2.
      * assert (Hit' : (it < 5)%nat) by lia.
        destruct (low_adjust_it gi it w Hbus Hge Hit')
          as (v & Hv & E & Hi & Hg & Hd).
        set (w1 := after_field_write 4 6 v w) in *.
        assert (Hdef1 : it_defined (it_code w1) = true) by now rewrite Hi.
        destruct (read_als_wait_frame w1 Hbus Hdef1)
          as (a' & w2 & E2 & Hc2 & Hn2 & Hr2 & Hl2).
        assert (Hdef2 : it_defined (it_code w2) = true)
          by now rewrite (it_code_same_conf _ _ Hc2).
        destruct (IH gi (S it) a' w2) as
          (l & w' & E3 & Huc & Hex & Hgl & Hil & Hd' & Hrd & Hal & Hla);
          try assumption; try lia.
        exists l, w'. unfold bind. rewrite E. cbn [fst snd]. rewrite E2.
        split; [exact E3 |].
        split; [exact Huc |]. split; [exact Hex |].
        split; [lia |]. split; [lia |]. split; [exact Hd' |].
        split; [| split].
        -- rewrite Hrd, Hr2. unfold w1.
           rewrite als_reads_after_field_write. lia.
        -- right. destruct Hal as [-> | Hal]; [exact Hn2 | exact Hal].
        -- intros _. apply Hla. exact Hl2.
    + apply low_continue_false in C.
      exists (mkLocals gi it false a), w. cbn.
      repeat split; auto; lia.
Qed.

(** *** The high-light loop *)

Lemma high_loop_spec :
  bus_ok ->
  forall it gi a w,
    (it <= 5)%nat ->
    it_defined (it_code w) = true ->
    exists l w',
      high_loop gi it a w = (Ok l, w') /\
      use_correction l = true /\
      gain_index l = gi /\
      (it_index l <= it)%nat /\
      (als l <= 10000 \/ it_index l = 0%nat) /\
      it_defined (it_code w') = true /\
      als_reads (log w') = (als_reads (log w) + (it - it_index l))%nat /\
      (a <= 10000 -> l = mkLocals gi it true a /\ w' = w) /\
      (last_als (log w) = Some a -> last_als (log w') = Some (als l)).
Proof.
  intros Hbus. induction it as [| it IH]; intros gi a w Hit Hdef.
  - exists (mkLocals gi 0 true a), w. cbn [high_loop].
    destruct (Z.gtb_spec a 10000); cbn; repeat split; auto; lia.
  - cbn [high_loop]. destruct (Z.gtb_spec a 10000) as [Hgt | Hle].
    + destruct (integration_time_settings_item it) as (v & Hv & Hr & Hd);
        [lia |].
      set (w1 := after_field_write 4 6 v w).
      assert (Hdef1 : it_defined (it_code w1) = true)
        by (unfold w1; now rewrite it_code_after_field_write_it).
      destruct (read_als_wait_frame w1 Hbus Hdef1)
        as (a' & w2 & E2 & Hc2 & Hn2 & Hr2 & Hl2).
      assert (Hdef2 : it_defined (it_code w2) = true)
        by now rewrite (it_code_same_conf _ _ Hc2).
      destruct (IH gi a' w2) as
        (l & w' & E3 & Huc & Hgl & Hil & Hex & Hd' & Hrd & _ & Hla);
        try assumption; try lia.
      exists l, w'. unfold bind, list_item. rewrite Hv. cbn [ret].
      unfold set_light_integration_time.
      rewrite rwbits_set_ok by assumption. fold w1. rewrite E2.
      split; [exact E3 |].
      split; [exact Huc |]. split; [exact Hgl |]. split; [lia |].
      split; [exact Hex |]. split; [exact Hd' |].
      split; [| split].
      * rewrite Hrd, Hr2. unfold w1.
        rewrite als_reads_after_field_write. lia.
      * intros Hle. lia.
      * intros _. apply Hla. exact Hl2.
    + exists (mkLocals gi (S it) true a), w. cbn.
      repeat split; auto; lia.
Qed.


(** *** [autolux] *)

Lemma autolux_first_read_ok w :
  bus_ok ->
  it_defined (it_code w) = true ->
  autolux_first_read w = _read_als_wait (after_conf_read (after_conf_read w)).
Proof.
  intros Hbus Hdef. unfold autolux_first_read, bind.
  rewrite light_gain_ok by assumption. unfold index_discarded.
  destruct (list_index gain_settings (gain_code w)) eqn:Eg;
    [| now apply gain_settings_index in Eg; [| apply gain_code_range]].
  cbn [ret]. rewrite light_integration_time_ok by assumption.
  change (it_code (after_conf_read w)) with (it_code w).
  apply integration_time_settings_index in Hdef.
  destruct (list_index integration_time_settings (it_code w));
    [reflexivity | now elim Hdef].
Qed.

Lemma autolux_first_read_undefined w :
  bus_ok ->
  it_defined (it_code w) = false ->
  autolux_first_read w
  = (Raise ValueError, after_conf_read (after_conf_read w)).
Proof.
  intros Hbus Hdef. unfold autolux_first_read, bind.
  rewrite light_gain_ok by assumption. unfold index_discarded.
  destruct (list_index gain_settings (gain_code w)) eqn:Eg;
    [| now apply gain_settings_index in Eg; [| apply gain_code_range]].
  cbn [ret]. rewrite light_integration_time_ok by assumption.
  change (it_code (after_conf_read w)) with (it_code w).
  destruct (list_index integration_time_settings (it_code w)) eqn:Ei;
    [| reflexivity].
  assert (H : it_defined (it_code w) = true)
    by (apply integration_time_settings_index; congruence).
  congruence.
Qed.

(** What the loops know after a first reading that returned. *)
Lemma autolux_first_read_frame w a w0 :
  bus_ok ->
  autolux_first_read w = (Ok a, w0) ->
  it_defined (it_code w0) = true /\
  conf0 w0 = conf0 w /\
  als_reads (log w0) = S (als_reads (log w)) /\
  last_als (log w0) = Some a /\
  exists n, a = unpack_H (light_bytes env n).
Proof.
  intros Hbus E.
  destruct (it_defined (it_code w)) eqn:Hdef.
  - rewrite autolux_first_read_ok in E by assumption.
    destruct (read_als_wait_frame (after_conf_read (after_conf_read w)) Hbus Hdef)
      as (a' & w' & E' & Hc & Hn & Hr & Hl).
    rewrite E' in E. inversion E; subst a' w'; clear E.
    split; [| split; [| split; [| split]]].
    + now rewrite (it_code_same_conf _ _ Hc).
    + exact Hc.
    + rewrite Hr, !als_reads_after_conf_read. reflexivity.
    + exact Hl.
    + exact Hn.
  - rewrite autolux_first_read_undefined in E by assumption. discriminate.
Qed.




(** The two iteration relations are the unfoldings of the loops. *)
Lemma low_loop_iteration fuel gi it a w gi' it' a' w' :
  low_iteration (gi, it, a, w) (gi', it', a', w') ->
  low_loop (S fuel) gi it a w = low_loop fuel gi' it' a' w'.
Proof.
  intros (C & w1 & Hadj & Hread). cbn [low_loop]. rewrite C.
  unfold bind. rewrite Hadj. cbn [fst snd]. now rewrite Hread.
Qed.

Lemma high_loop_iteration gi it a w it' a' w' :
  high_iteration (it, a, w) (it', a', w') ->
  high_loop gi it a w = high_loop gi it' a' w'.
Proof.
  intros (C & Hpos & v & w1 & Hv & Hset & -> & Hread).
  destruct it as [| it]; [lia |]. cbn [Nat.pred] in *.
  cbn [high_loop]. rewrite C. unfold bind, list_item. rewrite Hv.
  cbn [ret]. rewrite Hset. now rewrite Hread.
Qed.

Lemma autolux_returns fuel w l w' :
  autolux_ranging fuel w = (Ok l, w') ->
  autolux fuel w = compute_lux (als l) (use_correction l) w'.
Proof.
  intros H. unfold autolux, bind. now rewrite H.
Qed.

(** C2: when the first guarded reading of [autolux] is above 100 on a
    working bus, [use_correction] is true at the [return], also when the
    reading is at most 10000 and the loop does not run (the locals and the
    world are then those after the first reading).  Each iteration of the
    high-light loop lowers [it_index] by exactly one, from a positive
    value.  The loop takes [2 - it_index] guarded readings, at most two,
    and stops with [als <= 10000] or [it_index = 0]; [autolux] returns
    [compute_lux(als, True)] for the reading taken last. *)
Theorem autolux_high_light_branch w fuel a0 w0 :
  bus_ok ->
  autolux_first_read w = (Ok a0, w0) ->
  100 < a0 ->
  (forall it a w1 it' a' w1',
      high_iteration (it, a, w1) (it', a', w1') ->
      10000 < a /\ (0 < it)%nat /\ it = S it') /\
  exists l w',
    autolux_ranging fuel w = (Ok l, w') /\
    use_correction l = true /\
    (a0 <= 10000 -> l = mkLocals 0 2 true a0 /\ w' = w0) /\
    (it_index l <= 2)%nat /\
    (als l <= 10000 \/ it_index l = 0%nat) /\
    als_reads (log w') = (als_reads (log w0) + (2 - it_index l))%nat /\
    (als_reads (log w') <= als_reads (log w0) + 2)%nat /\
    last_als (log w') = Some (als l) /\
    autolux fuel w = compute_lux (als l) true w'.
Proof.
  intros Hbus E Ha0. split.
  - intros it a w1 it' a' w1' (C & Hpos & v & w2 & _ & _ & -> & _).
    split; [lia |]. split; [exact Hpos | lia].
  - destruct (autolux_first_read_frame w a0 w0 Hbus E)
      as (Hdef0 & _ & _ & Hl0 & _).
    destruct (high_loop_spec Hbus 2%nat 0%nat a0 w0)
      as (l & w' & E' & Huc & Hgl & Hil & Hex & _ & Hrd & Hzero & Hla);
      try assumption; try lia.
    assert (Er : autolux_ranging fuel w = (Ok l, w')).
    { unfold autolux_ranging, bind. rewrite E.
      replace (a0 <=? 100) with false by (symmetry; apply Z.leb_gt; lia).
      exact E'. }
    exists l, w'.
    split; [exact Er |]. split; [exact Huc |]. split; [exact Hzero |].
    split; [exact Hil |]. split; [exact Hex |]. split; [exact Hrd |].
    split; [lia |]. split; [now apply Hla |].
    rewrite (autolux_returns _ _ _ _ Er), Huc. reflexivity.
Qed.



(** *** Totality *)

Lemma resolution_total w :
  bus_ok ->
  it_defined (it_code w) = true ->
  exists r w', resolution w = (Ok r, w') /\ conf0 w' = conf0 w.
Proof.
  intros Hbus Hdef. apply it_defined_true in Hdef. destruct Hdef as [t Ht].
  destruct (gain_values_total (gain_code w) (gain_code_range w)) as [g Hg].
  destruct (PrimFloat.eqb g gain_max) eqn:E.
  - rewrite (resolution_max_gain w g t Hbus Hg Ht E).
    destruct (t =? integration_time_max); eexists; eexists; split; reflexivity.
  - rewrite (resolution_low_gain w g t Hbus Hg Ht E).
    eexists; eexists; split; reflexivity.
Qed.

Lemma resolution_undefined w :
  bus_ok ->
  it_defined (it_code w) = false ->
  fst (resolution w) = Raise KeyError.
Proof.
  intros Hbus Hdef.
  assert (Ht : dict_get integration_time_values (it_code w) = None).
  { unfold it_defined in Hdef.
    destruct (dict_get integration_time_values (it_code w)); congruence. }
  destruct (gain_values_total (gain_code w) (gain_code_range w)) as [g Hg].
  unfold resolution, bind. rewrite (gain_value_ok w g Hbus Hg).
  destruct (PrimFloat.eqb g gain_max).
  - now rewrite (integration_time_value_undefined (after_conf_read w) Hbus Ht).
  - cbn [ret].
    now rewrite (integration_time_value_undefined (after_conf_read w) Hbus Ht).
Qed.

Lemma it_defined_false c :
  it_defined c = false -> dict_get integration_time_values c = None.
Proof.
  unfold it_defined. destruct (dict_get integration_time_values c); congruence.
Qed.

Lemma wait_autolux_total wait_time w :
  bus_ok ->
  it_defined (it_code w) = true ->
  exists w', wait_autolux wait_time w = (Ok tt, w').
Proof.
  intros Hbus Hdef. apply it_defined_true in Hdef. destruct Hdef as [t Ht].
  eexists. unfold wait_autolux, bind.
  rewrite (integration_time_value_ok w t Hbus Ht).
  apply sleep_ok.
  apply Qle_trans with (inject_Z t / 1000)%Q; [| apply py_max_ge_l].
  apply Qle_shift_div_l; [reflexivity |].
  pose proof (integration_time_values_pos _ _ Ht) as Hpos.
  assert (H0 : (inject_Z 0 <= inject_Z t)%Q) by (rewrite <- Zle_Qle; lia).
  change (inject_Z 0) with 0%Q in H0. lra.
Qed.

Lemma autolux_total fuel w :
  bus_ok ->
  it_defined (it_code w) = true ->
  (6 <= fuel)%nat ->
  exists x w', autolux fuel w = (Ok x, w').
Proof.
  intros Hbus Hdef Hfuel.
  destruct (read_als_wait_frame (after_conf_read (after_conf_read w)) Hbus Hdef)
    as (a & w0 & E & Hc & _).
  assert (Hdef0 : it_defined (it_code w0) = true)
    by now rewrite (it_code_same_conf _ _ Hc).
  assert (R : exists l w', autolux_ranging fuel w = (Ok l, w') /\
                           it_defined (it_code w') = true).
  { unfold autolux_ranging, bind.
    rewrite autolux_first_read_ok, E by assumption.
    destruct (a <=? 100).
    - destruct (low_loop_spec Hbus fuel 0%nat 2%nat a w0)
        as (l & w' & E' & _ & _ & _ & _ & Hd & _); try assumption; try lia.
      now exists l, w'.
    - destruct (high_loop_spec Hbus 2%nat 0%nat a w0)
        as (l & w' & E' & _ & _ & _ & _ & Hd & _); try assumption; try lia.
      now exists l, w'. }
  destruct R as (l & w' & Er & Hd).
  destruct (resolution_total w' Hbus Hd) as (r & w'' & Hr & _).
  rewrite (autolux_returns _ _ _ _ Er). unfold compute_lux, bind. rewrite Hr.
  eexists; eexists; reflexivity.
Qed.

(** C10: the gain lookup succeeds for every code the 2-bit gain field can
    hold.  The integration-time lookup is defined for the six constants
    only: ten of the sixteen values of the 4-bit field, each of which the
    field can hold, have no entry.  With such a value latched, on a working
    bus, [integration_time_value()] raises [KeyError], and so do
    [resolution()], [lux], [compute_lux], [_read_als_wait] and
    [wait_autolux]; [autolux] raises [ValueError] at its [index] call.
    With one of the six codes latched all of them return. *)
Theorem integration_time_lookup_partial w :
  bus_ok ->
  (forall c, 0 <= c < 4 -> exists g, dict_get gain_values c = Some g) /\
  (exists g, fst (gain_value w) = Ok g) /\
  (forall c, 0 <= c < 16 ->
             (it_defined c = false <->
              ~ In c [ALS_25MS; ALS_50MS; ALS_100MS; ALS_200MS; ALS_400MS;
                      ALS_800MS])) /\
  length (filter (fun c => negb (it_defined c)) (map Z.of_nat (seq 0 16)))
  = 10%nat /\
  (forall c, 0 <= c < 16 -> exists w', it_code w' = c) /\
  (it_defined (it_code w) = false ->
   fst (integration_time_value w) = Raise KeyError /\
   fst (resolution w) = Raise KeyError /\
   fst (lux w) = Raise KeyError /\
   (forall raw uc, fst (compute_lux raw uc w) = Raise KeyError) /\
   fst (_read_als_wait w) = Raise KeyError /\
   (forall wait_time, fst (wait_autolux wait_time w) = Raise KeyError) /\
   (forall fuel, fst (autolux fuel w) = Raise ValueError)) /\
  (it_defined (it_code w) = true ->
   (exists t, fst (integration_time_value w) = Ok t) /\
   (exists r, fst (resolution w) = Ok r) /\
   (exists x, fst (lux w) = Ok x) /\
   (forall raw uc, exists x, fst (compute_lux raw uc w) = Ok x) /\
   (exists a, fst (_read_als_wait w) = Ok a) /\
   (forall wait_time, fst (wait_autolux wait_time w) = Ok tt) /\
   (forall fuel, (6 <= fuel)%nat -> exists x, fst (autolux fuel w) = Ok x)).
Proof.
  intros Hbus.
  split; [exact gain_values_total |].
  split.
  { destruct (gain_values_total (gain_code w) (gain_code_range w)) as [g Hg].
    exists g. now rewrite (gain_value_ok w g Hbus Hg). }
  split.
  { intros c Hc.
    assert (C : c = 0 \/ c = 1 \/ c = 2 \/ c = 3 \/ c = 4 \/ c = 5 \/ c = 6 \/
                c = 7 \/ c = 8 \/ c = 9 \/ c = 10 \/ c = 11 \/ c = 12 \/
                c = 13 \/ c = 14 \/ c = 15) by lia.
    unfold ALS_25MS, ALS_50MS, ALS_100MS, ALS_200MS, ALS_400MS, ALS_800MS.
    cbn [In].
    repeat (destruct C as [-> | C]); try subst c;
      (split; [intros H; try discriminate H; lia
              | intros H; try reflexivity; exfalso; apply H; auto 10]). }
  split; [reflexivity |].
  split.
  { intros c Hc. exists (after_field_write 4 6 c w).
    now apply it_code_after_field_write_it. }
  split.
  - intros Hdef. pose proof (it_defined_false _ Hdef) as Ht.
    pose proof (resolution_undefined w Hbus Hdef) as Hres.
    split; [now rewrite (integration_time_value_undefined w Hbus Ht) |].
    split; [exact Hres |].
    split.
    { unfold lux, bind. destruct (resolution w) as [[r | e |] w1];
        cbn [fst] in *; congruence. }
    split.
    { intros raw uc. unfold compute_lux, bind.
      destruct (resolution w) as [[r | e |] w1]; cbn [fst] in *; congruence. }
    split.
    { unfold _read_als_wait, bind.
      now rewrite (integration_time_value_undefined w Hbus Ht). }
    split.
    { intros wait_time. unfold wait_autolux, bind.
      now rewrite (integration_time_value_undefined w Hbus Ht). }
    intros fuel. unfold autolux, autolux_ranging, bind.
    now rewrite (autolux_first_read_undefined w Hbus Hdef).
  - intros Hdef.
    destruct (resolution_total w Hbus Hdef) as (r & w1 & Hr & Hc1).
    split.
    { destruct (it_defined_true _ Hdef) as [t Ht].
      exists t. now rewrite (integration_time_value_ok w t Hbus Ht). }
    split; [exists r; now rewrite Hr |].
    split.
    { unfold lux, bind. rewrite Hr. unfold light, bus_read. rewrite Hbus.
      eexists. reflexivity. }
    split.
    { intros raw uc. unfold compute_lux, bind. rewrite Hr.
      eexists. reflexivity. }
    split.
    { destruct (read_als_wait_frame w Hbus Hdef) as (a & w' & E & _).
      exists a. now rewrite E. }
    split.
    { intros wait_time.
      destruct (wait_autolux_total wait_time w Hbus Hdef) as [w' E].
      now rewrite E. }
    intros fuel Hfuel.
    destruct (autolux_total fuel w Hbus Hdef Hfuel) as (x & w' & E).
    exists x. now rewrite E.
Qed.


(** ** Further properties *)

(** *** What a call leaves as it was *)

Lemma keeps_ret {T A} (f : World -> T) (a : A) : keeps f (ret a).
Proof. intros w. reflexivity. Qed.

Lemma keeps_raise {T A} (f : World -> T) (e : exn) : keeps f (@raise A e).
Proof. intros w. reflexivity. Qed.

Lemma keeps_out_of_fuel {T A} (f : World -> T) : keeps f (@out_of_fuel A).
Proof. intros w. reflexivity. Qed.

Lemma keeps_bind {T A B} (f : World -> T) (m : M A) (k : A -> M B) :
  keeps f m -> (forall a, keeps f (k a)) -> keeps f (bind m k).
Proof.
  intros Hm Hk w. unfold bind. specialize (Hm w).
  destruct (m w) as [[a | e |] w1]; cbn [snd] in *; try assumption.
  now rewrite Hk.
Qed.


Section Keeps.

(** An observation that looks at nothing but the configuration register
    and [last_read]. *)
Variable T : Type.
Variable f : World -> T.
Hypothesis f_advance : forall dt ev w, f (advance dt ev w) = f w.

Lemma keeps_bus_read r : keeps f (bus_read r).
Proof.
  intros w. unfold bus_read. destruct (fault env (tick w)); apply f_advance.
Qed.

Lemma keeps_rwbits_get nb r lo : keeps f (rwbits_get nb r lo).
Proof.
  apply keeps_bind; [apply keeps_bus_read | intros; apply keeps_ret].
Qed.

Lemma keeps_monotonic : keeps f monotonic.
Proof. intros w. apply f_advance. Qed.

Lemma keeps_milliseconds : keeps f milliseconds.
Proof.
  apply keeps_bind; [apply keeps_monotonic | intros; apply keeps_ret].
Qed.

Lemma keeps_sleep secs : keeps f (sleep secs).
Proof.
  intros w. unfold sleep. destruct (Qltb secs 0); [reflexivity |].
  apply f_advance.
Qed.

Lemma keeps_integration_time_value : keeps f integration_time_value.
Proof.
  apply keeps_bind; [apply keeps_rwbits_get |].
  intros c. destruct (dict_get integration_time_values c);
    [apply keeps_ret | apply keeps_raise].
Qed.

Lemma keeps_gain_value : keeps f gain_value.
Proof.
  apply keeps_bind; [apply keeps_rwbits_get |].
  intros c. destruct (dict_get gain_values c);
    [apply keeps_ret | apply keeps_raise].
Qed.

Lemma keeps_resolution : keeps f resolution.
Proof.
  apply keeps_bind; [apply keeps_gain_value |]. intros g.
  apply keeps_bind.
  - destruct (PrimFloat.eqb g gain_max); [| apply keeps_ret].
    apply keeps_bind; [apply keeps_integration_time_value |].
    intros; apply keeps_ret.
  - intros [|]; [apply keeps_ret |].
    apply keeps_bind; [apply keeps_integration_time_value |]. intros t.
    apply keeps_bind; [apply keeps_gain_value |]. intros; apply keeps_ret.
Qed.

Lemma keeps_compute_lux a uc : keeps f (compute_lux a uc).
Proof.
  apply keeps_bind; [apply keeps_resolution | intros; apply keeps_ret].
Qed.

Lemma keeps_lux : keeps f lux.
Proof.
  apply keeps_bind; [apply keeps_resolution |]. intros r.
  apply keeps_bind; [apply keeps_bus_read | intros; apply keeps_ret].
Qed.

Lemma keeps_wait_autolux wait_time : keeps f (wait_autolux wait_time).
Proof.
  apply keeps_bind; [apply keeps_integration_time_value |].
  intros t. apply keeps_sleep.
Qed.

End Keeps.

Lemma conf0_advance dt ev w : conf0 (advance dt ev w) = conf0 w.
Proof. reflexivity. Qed.

Lemma last_read_advance dt ev w : last_read (advance dt ev w) = last_read w.
Proof. reflexivity. Qed.

(** The guarded reading stamps [last_read] and leaves the device alone. *)
Lemma keeps_conf0_read_als_wait : keeps conf0 _read_als_wait.
Proof.
  apply keeps_bind; [apply keeps_integration_time_value, conf0_advance |].
  intros t.
  apply keeps_bind; [apply keeps_milliseconds, conf0_advance |]. intros now.
  apply keeps_bind; [intros w; reflexivity |]. intros lr.
  apply keeps_bind.
  - destruct (Qltb _ _); [apply keeps_sleep, conf0_advance | apply keeps_ret].
  - intros _.
    apply keeps_bind; [apply keeps_milliseconds, conf0_advance |]. intros now'.
    apply keeps_bind; [intros w; reflexivity |]. intros _.
    apply keeps_bus_read, conf0_advance.
Qed.




(** X1: whatever the bus does, [lux], [compute_lux] and [wait_autolux]
    leave the configuration register and [last_read] as they were, and
    [_read_als_wait] leaves the configuration register as it was. *)
Theorem measurements_leave_settings w :
  (conf0 (snd (lux w)) = conf0 w /\ last_read (snd (lux w)) = last_read w) /\
  (forall a uc,
      conf0 (snd (compute_lux a uc w)) = conf0 w /\
      last_read (snd (compute_lux a uc w)) = last_read w) /\
  (forall wait_time,
      conf0 (snd (wait_autolux wait_time w)) = conf0 w /\
      last_read (snd (wait_autolux wait_time w)) = last_read w) /\
  conf0 (snd (_read_als_wait w)) = conf0 w.
Proof.
  split; [| split; [| split]].
  - split; [apply (keeps_lux _ conf0 conf0_advance)
           | apply (keeps_lux _ last_read last_read_advance)].
  - intros a uc.
    split; [apply (keeps_compute_lux _ conf0 conf0_advance)
           | apply (keeps_compute_lux _ last_read last_read_advance)].
  - intros wait_time.
    split; [apply (keeps_wait_autolux _ conf0 conf0_advance)
           | apply (keeps_wait_autolux _ last_read last_read_advance)].
  - apply keeps_conf0_read_als_wait.
Qed.

(** *** The three fields of ALS_CONF_0 *)

(** X2: on a working bus a gain code written is the gain code read back,
    and the integration-time field and the shutdown bit are as before; an
    integration-time code written is read back with the gain field and the
    shutdown bit as before; writing the shutdown bit leaves the two
    fields as before. *)
Theorem settings_round_trip w :
  bus_ok ->
  (forall v, 0 <= v < 4 ->
             exists w',
               (set_light_gain v ;;; light_gain) w = (Ok v, w') /\
               it_code w' = it_code w /\ shutdown_bit w' = shutdown_bit w) /\
  (forall v, 0 <= v < 16 ->
             exists w',
               (set_light_integration_time v ;;; light_integration_time) w
               = (Ok v, w') /\
               gain_code w' = gain_code w /\ shutdown_bit w' = shutdown_bit w) /\
  (forall b, exists w',
               set_light_shutdown b w = (Ok tt, w') /\
               shutdown_bit w' = (if b then 1 else 0) /\
               gain_code w' = gain_code w /\ it_code w' = it_code w).
Proof.
  intros Hbus. split; [| split].
  - intros v Hv. eexists. split; [| split].
    + unfold bind, set_light_gain. rewrite rwbits_set_ok by assumption.
      rewrite light_gain_ok by assumption.
      change (gain_code (after_field_write 2 11 v w))
        with (field_get (field_set (conf0 w) 2 11 v) 2 11).
      rewrite field_get_set_same by lia. reflexivity.
    + unfold it_code. cbn [conf0 after_conf_read after_field_write advance].
      apply field_get_set_other; lia.
    + unfold shutdown_bit.
      cbn [conf0 after_conf_read after_field_write advance].
      apply field_get_set_other; lia.
  - intros v Hv. eexists. split; [| split].
    + unfold bind, set_light_integration_time.
      rewrite rwbits_set_ok by assumption.
      rewrite light_integration_time_ok by assumption.
      change (it_code (after_field_write 4 6 v w))
        with (field_get (field_set (conf0 w) 4 6 v) 4 6).
      rewrite field_get_set_same by lia. reflexivity.
    + unfold gain_code. cbn [conf0 after_conf_read after_field_write advance].
      apply field_get_set_other; lia.
    + unfold shutdown_bit.
      cbn [conf0 after_conf_read after_field_write advance].
      apply field_get_set_other; lia.
  - intros b. eexists. split; [| split; [| split]].
    + unfold set_light_shutdown. now apply rwbits_set_ok.
    + unfold shutdown_bit. cbn [conf0 after_field_write].
      apply field_get_set_same; destruct b; lia.
    + unfold gain_code. cbn [conf0 after_field_write].
      apply field_get_set_other; destruct b; lia.
    + unfold it_code. cbn [conf0 after_field_write].
      apply field_get_set_other; destruct b; lia.
Qed.

(** *** Construction on any bus *)

Lemma keeps_last_read_rwbits_set nb lo v :
  keeps last_read (rwbits_set nb REG_ALS_CONF_0 lo v).
Proof.
  intros w. unfold rwbits_set, bind, bus_read, bus_write.
  destruct (fault env (tick w)); [reflexivity |]. cbn [tick advance].
  destruct (fault env (S (tick w))); reflexivity.
Qed.











(** *** A bus fault ends the call *)

Lemma no_fault_app l l' : no_fault (l ++ l') = no_fault l && no_fault l'.
Proof. unfold no_fault. apply forallb_app. Qed.

Lemma fault_stops_quiet {A} (m : M A) :
  (forall w, snd (m w) = w) -> fault_stops m.
Proof.
  intros H w. exists []. rewrite H, app_nil_r. split; [reflexivity |].
  left. reflexivity.
Qed.

Lemma fault_stops_ret {A} (a : A) : fault_stops (ret a).
Proof. apply fault_stops_quiet. reflexivity. Qed.

Lemma fault_stops_raise {A} (e : exn) : fault_stops (@raise A e).
Proof. apply fault_stops_quiet. reflexivity. Qed.

Lemma fault_stops_out_of_fuel {A} : fault_stops (@out_of_fuel A).
Proof. apply fault_stops_quiet. reflexivity. Qed.

Lemma fault_stops_bind {A B} (m : M A) (k : A -> M B) :
  fault_stops m -> (forall a, fault_stops (k a)) -> fault_stops (bind m k).
Proof.
  intros Hm Hk w. destruct (Hm w) as (evs1 & L1 & C1). unfold bind.
  destruct (m w) as [[a | e |] w1]; cbn [fst snd] in *.
  - destruct C1 as [C1 | (pre & e & _ & _ & Habs)]; [| discriminate].
    destruct (Hk a w1) as (evs2 & L2 & C2).
    exists (evs1 ++ evs2). split.
    + rewrite L2. rewrite L1. now rewrite app_assoc.
    + destruct C2 as [C2 | (pre & e & -> & Hpre & Hr)].
      * left. rewrite no_fault_app, C1, C2. reflexivity.
      * right. exists (evs1 ++ pre), e. rewrite app_assoc.
        split; [reflexivity |]. split; [| exact Hr].
        rewrite no_fault_app, C1, Hpre. reflexivity.
  - exists evs1. split; [exact L1 |].
    destruct C1 as [C1 | (pre & e0 & Hevs & Hpre & Hr)]; [now left |].
    right. exists pre, e0. inversion Hr. now repeat split.
  - exists evs1. split; [exact L1 |].
    destruct C1 as [C1 | (pre & e0 & _ & _ & Hr)]; [now left | discriminate].
Qed.

Lemma fault_stops_bus_read r : fault_stops (bus_read r).
Proof.
  intros w. unfold bus_read. destruct (fault env (tick w)) as [e |].
  - exists [EvBusFault e]. split; [reflexivity |].
    right. exists [], e. repeat split.
  - eexists. split; [reflexivity |]. left. reflexivity.
Qed.

Lemma fault_stops_bus_write r v : fault_stops (bus_write r v).
Proof.
  intros w. unfold bus_write. destruct (fault env (tick w)) as [e |].
  - exists [EvBusFault e]. split; [reflexivity |].
    right. exists [], e. repeat split.
  - exists [EvBusWrite (register_address r) v].
    split; [destruct r; reflexivity |]. left. reflexivity.
Qed.

Lemma fault_stops_monotonic : fault_stops monotonic.
Proof.
  intros w. eexists. split; [reflexivity |]. left. reflexivity.
Qed.

Lemma fault_stops_sleep secs : fault_stops (sleep secs).
Proof.
  intros w. unfold sleep. destruct (Qltb secs 0).
  - exists []. cbn [snd]. rewrite app_nil_r. split; [reflexivity |].
    left. reflexivity.
  - eexists. split; [reflexivity |]. left. reflexivity.
Qed.

Lemma fault_stops_get_last_read : fault_stops get_last_read.
Proof. apply fault_stops_quiet. reflexivity. Qed.

Lemma fault_stops_set_last_read t : fault_stops (set_last_read t).
Proof.
  intros w. exists []. cbn. rewrite app_nil_r. split; [reflexivity |].
  left. reflexivity.
Qed.

Lemma fault_stops_rwbits_get nb r lo : fault_stops (rwbits_get nb r lo).
Proof.
  apply fault_stops_bind; [apply fault_stops_bus_read |].
  intros; apply fault_stops_ret.
Qed.

Lemma fault_stops_rwbits_set nb r lo v : fault_stops (rwbits_set nb r lo v).
Proof.
  apply fault_stops_bind; [apply fault_stops_bus_read |].
  intros; apply fault_stops_bus_write.
Qed.

Lemma fault_stops_milliseconds : fault_stops milliseconds.
Proof.
  apply fault_stops_bind; [apply fault_stops_monotonic |].
  intros; apply fault_stops_ret.
Qed.

Lemma fault_stops_integration_time_value : fault_stops integration_time_value.
Proof.
  apply fault_stops_bind; [apply fault_stops_rwbits_get |].
  intros c. destruct (dict_get integration_time_values c);
    [apply fault_stops_ret | apply fault_stops_raise].
Qed.

Lemma fault_stops_gain_value : fault_stops gain_value.
Proof.
  apply fault_stops_bind; [apply fault_stops_rwbits_get |].
  intros c. destruct (dict_get gain_values c);
    [apply fault_stops_ret | apply fault_stops_raise].
Qed.

Lemma fault_stops_resolution : fault_stops resolution.
Proof.
  apply fault_stops_bind; [apply fault_stops_gain_value |]. intros g.
  apply fault_stops_bind.
  - destruct (PrimFloat.eqb g gain_max); [| apply fault_stops_ret].
    apply fault_stops_bind; [apply fault_stops_integration_time_value |].
    intros; apply fault_stops_ret.
  - intros [|]; [apply fault_stops_ret |].
    apply fault_stops_bind; [apply fault_stops_integration_time_value |].
    intros t.
    apply fault_stops_bind; [apply fault_stops_gain_value |].
    intros; apply fault_stops_ret.
Qed.

Lemma fault_stops_compute_lux a uc : fault_stops (compute_lux a uc).
Proof.
  apply fault_stops_bind; [apply fault_stops_resolution |].
  intros; apply fault_stops_ret.
Qed.

Lemma fault_stops_lux : fault_stops lux.
Proof.
  apply fault_stops_bind; [apply fault_stops_resolution |]. intros r.
  apply fault_stops_bind; [apply fault_stops_bus_read |].
  intros; apply fault_stops_ret.
Qed.

Lemma fault_stops_read_als_wait : fault_stops _read_als_wait.
Proof.
  apply fault_stops_bind; [apply fault_stops_integration_time_value |].
  intros t.
  apply fault_stops_bind; [apply fault_stops_milliseconds |]. intros now.
  apply fault_stops_bind; [apply fault_stops_get_last_read |]. intros lr.
  apply fault_stops_bind.
  - destruct (Qltb _ _); [apply fault_stops_sleep | apply fault_stops_ret].
  - intros _.
    apply fault_stops_bind; [apply fault_stops_milliseconds |]. intros now'.
    apply fault_stops_bind; [apply fault_stops_set_last_read |]. intros _.
    apply fault_stops_bus_read.
Qed.

Lemma fault_stops_wait_autolux wait_time :
  fault_stops (wait_autolux wait_time).
Proof.
  apply fault_stops_bind; [apply fault_stops_integration_time_value |].
  intros t. apply fault_stops_sleep.
Qed.

Lemma fault_stops_list_item l i : fault_stops (list_item l i).
Proof.
  unfold list_item. destruct (nth_error l i);
    [apply fault_stops_ret | apply fault_stops_raise].
Qed.

Lemma fault_stops_index_discarded l x : fault_stops (index_discarded l x).
Proof.
  unfold index_discarded. destruct (list_index l x);
    [apply fault_stops_ret | apply fault_stops_raise].
Qed.

Lemma fault_stops_low_adjust gi it : fault_stops (low_adjust gi it).
Proof.
  unfold low_adjust. destruct (gi <? 3)%nat; [| destruct (it <? 5)%nat].
  - apply fault_stops_bind; [apply fault_stops_list_item |]. intros v.
    apply fault_stops_bind; [apply fault_stops_rwbits_set |].
    intros; apply fault_stops_ret.
  - apply fault_stops_bind; [apply fault_stops_list_item |]. intros v.
    apply fault_stops_bind; [apply fault_stops_rwbits_set |].
    intros; apply fault_stops_ret.
  - apply fault_stops_ret.
Qed.

Lemma fault_stops_low_loop fuel :
  forall gi it a, fault_stops (low_loop fuel gi it a).
Proof.
  induction fuel as [| fuel IH]; intros gi it a; cbn [low_loop];
    destruct (low_continue gi it a); try apply fault_stops_ret.
  - apply fault_stops_out_of_fuel.
  - apply fault_stops_bind; [apply fault_stops_low_adjust |]. intros idx.
    apply fault_stops_bind; [apply fault_stops_read_als_wait |].
    intros a'. apply IH.
Qed.

Lemma fault_stops_high_loop gi it :
  forall a, fault_stops (high_loop gi it a).
Proof.
  induction it as [| it IH]; intros a; cbn [high_loop];
    destruct (a >? 10000); try apply fault_stops_ret.
  apply fault_stops_bind; [apply fault_stops_list_item |]. intros v.
  apply fault_stops_bind; [apply fault_stops_rwbits_set |]. intros _.
  apply fault_stops_bind; [apply fault_stops_read_als_wait |].
  intros a'. apply IH.
Qed.

Lemma fault_stops_autolux_first_read : fault_stops autolux_first_read.
Proof.
  apply fault_stops_bind; [apply fault_stops_rwbits_get |]. intros g.
  apply fault_stops_bind; [apply fault_stops_index_discarded |]. intros _.
  apply fault_stops_bind; [apply fault_stops_rwbits_get |]. intros it.
  apply fault_stops_bind; [apply fault_stops_index_discarded |]. intros _.
  apply fault_stops_read_als_wait.
Qed.

Lemma fault_stops_autolux fuel : fault_stops (autolux fuel).
Proof.
  apply fault_stops_bind.
  - apply fault_stops_bind; [apply fault_stops_autolux_first_read |].
    intros a. destruct (a <=? 100);
      [apply fault_stops_low_loop | apply fault_stops_high_loop].
  - intros l. apply fault_stops_compute_lux.
Qed.

(** X4: whatever the bus does, a failed bus transaction is the last
    effect of [autolux], [lux], [compute_lux], [_read_als_wait] and
    [wait_autolux], and its exception is the one the call raises: none of
    them retries or goes on after a transport failure, and none returns a
    value with a failed transaction behind it.  [autolux] that returns
    had a bus without fault. *)
Theorem bus_fault_aborts fuel :
  fault_stops (autolux fuel) /\
  fault_stops lux /\
  (forall a uc, fault_stops (compute_lux a uc)) /\
  fault_stops _read_als_wait /\
  (forall wait_time, fault_stops (wait_autolux wait_time)) /\
  (forall w x w',
      autolux fuel w = (Ok x, w') ->
      exists evs, log w' = log w ++ evs /\ no_fault evs = true).
Proof.
  split; [apply fault_stops_autolux |].
  split; [apply fault_stops_lux |].
  split; [apply fault_stops_compute_lux |].
  split; [apply fault_stops_read_als_wait |].
  split; [apply fault_stops_wait_autolux |].
  intros w x w' E.
  destruct (fault_stops_autolux fuel w) as (evs & L & C).
  rewrite E in L, C. cbn [fst snd] in *.
  exists evs. split; [exact L |].
  destruct C as [C | (pre & e & _ & _ & Habs)]; [exact C | discriminate].
Qed.


(** *** The device after a ranging *)

Lemma shutdown_bit_after_field_write_gain v w :
  0 <= v < 4 -> shutdown_bit (after_field_write 2 11 v w) = shutdown_bit w.
Proof.
  intros Hv. unfold shutdown_bit, after_field_write. cbn [conf0].
  apply field_get_set_other; lia.
Qed.

Lemma shutdown_bit_after_field_write_it v w :
  0 <= v < 16 -> shutdown_bit (after_field_write 4 6 v w) = shutdown_bit w.
Proof.
  intros Hv. unfold shutdown_bit, after_field_write. cbn [conf0].
  apply field_get_set_other; lia.
Qed.

Lemma shutdown_bit_same_conf w w' :
  conf0 w' = conf0 w -> shutdown_bit w' = shutdown_bit w.
Proof. unfold shutdown_bit. now intros ->. Qed.

(** The low-light loop from indices within the sequences: an index that
    moved names what the device holds, a field whose index did not move is
    as it was. *)
Lemma low_loop_device :
  bus_ok ->
  forall fuel gi it a w,
    (gi <= 3)%nat -> (it <= 5)%nat ->
    it_defined (it_code w) = true ->
    ((3 - gi) + (5 - it) <= fuel)%nat ->
    exists l w',
      low_loop fuel gi it a w = (Ok l, w') /\
      (gi <= gain_index l <= 3)%nat /\ (it <= it_index l <= 5)%nat /\
      (gain_index l = gi -> gain_code w' = gain_code w) /\
      ((gi < gain_index l)%nat ->
       nth_error gain_settings (gain_index l) = Some (gain_code w')) /\
      (it_index l = it -> it_code w' = it_code w) /\
      ((it < it_index l)%nat ->
       nth_error integration_time_settings (it_index l) = Some (it_code w')) /\
      shutdown_bit w' = shutdown_bit w.
Proof.
  intros Hbus. induction fuel as [| fuel IH]; intros gi it a w Hgi Hit Hdef Hfuel.
  - cbn [low_loop]. destruct (low_continue gi it a) eqn:C.
    + apply low_continue_true in C. lia.
    + exists (mkLocals gi it false a), w. cbn.
      repeat split; auto; lia.
  - cbn [low_loop]. destruct (low_continue gi it a) eqn:C.
    + apply low_continue_true in C. destruct C as [Ha Hnot].
      destruct (Nat.lt_ge_cases gi 3) as [Hlt | Hge].
      * destruct (low_adjust_gain gi it w Hbus Hlt) as (v & Hv & E & Hg & Hi).
        destruct (gain_settings_item gi Hlt) as (v' & Hv' & Hr).
        assert (v' = v) by congruence. subst v'.
        pose proof (shutdown_bit_after_field_write_gain v w Hr) as Hs.
        set (w1 := after_field_write 2 11 v w) in *.
        assert (Hdef1 : it_defined (it_code w1) = true) by now rewrite Hi.
        destruct (read_als_wait_frame w1 Hbus Hdef1)
          as (a' & w2 & E2 & Hc2 & _).
        assert (Hdef2 : it_defined (it_code w2) = true)
          by now rewrite (it_code_same_conf _ _ Hc2).
        destruct (IH (S gi) it a' w2) as
          (l & w' & E3 & Hgl & Hil & Hg1 & Hg2 & Hi1 & Hi2 & Hsd);
          try assumption; try lia.
        exists l, w'. unfold bind. rewrite E. cbn [fst snd]. rewrite E2.
        split; [exact E3 |]. split; [lia |]. split; [lia |].
        split; [intros; lia |].
        split.
        { intros _. destruct (Nat.eq_dec (gain_index l) (S gi)) as [Heq | Hne].
          - rewrite Hg1, (gain_code_same_conf _ _ Hc2), Hg, Heq by assumption.
            exact Hv.
          - apply Hg2. lia. }
        split.
        { intros Heq. rewrite Hi1, (it_code_same_conf _ _ Hc2) by assumption.
          exact Hi. }
        split; [exact Hi2 |].
        rewrite Hsd, (shutdown_bit_same_conf _ _ Hc2). exact Hs.
      * assert (Hit' : (it < 5)%nat) by lia.
        destruct (low_adjust_it gi it w Hbus Hge Hit')
          as (v & Hv & E & Hi & Hg & Hd).
        destruct (integration_time_settings_item (S it)) as (v' & Hv' & Hr & _);
          [lia |].
        assert (v' = v) by congruence. subst v'.
        pose proof (shutdown_bit_after_field_write_it v w Hr) as Hs.
        set (w1 := after_field_write 4 6 v w) in *.
        assert (Hdef1 : it_defined (it_code w1) = true) by now rewrite Hi.
        destruct (read_als_wait_frame w1 Hbus Hdef1)
          as (a' & w2 & E2 & Hc2 & _).
        assert (Hdef2 : it_defined (it_code w2) = true)
          by now rewrite (it_code_same_conf _ _ Hc2).
        destruct (IH gi (S it) a' w2) as
          (l & w' & E3 & Hgl & Hil & Hg1 & Hg2 & Hi1 & Hi2 & Hsd);
          try assumption; try lia.
        exists l, w'. unfold bind. rewrite E. cbn [fst snd]. rewrite E2.
        split; [exact E3 |]. split; [lia |]. split; [lia |].
        split.
        { intros Heq. rewrite Hg1, (gain_code_same_conf _ _ Hc2) by assumption.
          exact Hg. }
        split; [exact Hg2 |].
        split; [intros; lia |].
        split.
        { intros _. destruct (Nat.eq_dec (it_index l) (S it)) as [Heq | Hne].
          - rewrite Hi1, (it_code_same_conf _ _ Hc2), Hi, Heq by assumption.
            exact Hv.
          - apply Hi2. lia. }
        rewrite Hsd, (shutdown_bit_same_conf _ _ Hc2). exact Hs.
    + exists (mkLocals gi it false a), w. cbn.
      repeat split; auto; lia.
Qed.

(** The high-light loop: the gain field is never written. *)
Lemma high_loop_device :
  bus_ok ->
  forall it gi a w,
    (it <= 5)%nat ->
    it_defined (it_code w) = true ->
    exists l w',
      high_loop gi it a w = (Ok l, w') /\
      gain_index l = gi /\ (it_index l <= it)%nat /\
      gain_code w' = gain_code w /\
      (it_index l = it -> it_code w' = it_code w) /\
      ((it_index l < it)%nat ->
       nth_error integration_time_settings (it_index l) = Some (it_code w')) /\
      shutdown_bit w' = shutdown_bit w /\
      (als l = a \/ exists n, als l = unpack_H (light_bytes env n)).
Proof.
  intros Hbus. induction it as [| it IH]; intros gi a w Hit Hdef.
  - exists (mkLocals gi 0 true a), w. cbn [high_loop].
    destruct (a >? 10000); cbn; repeat split; auto; lia.
  - cbn [high_loop]. destruct (a >? 10000).
    + destruct (integration_time_settings_item it) as (v & Hv & Hr & Hd);
        [lia |].
      pose proof (shutdown_bit_after_field_write_it v w Hr) as Hs.
      pose proof (gain_code_after_field_write_it v w Hr) as Hg.
      pose proof (it_code_after_field_write_it v w Hr) as Hi.
      set (w1 := after_field_write 4 6 v w) in *.
      assert (Hdef1 : it_defined (it_code w1) = true) by now rewrite Hi.
      destruct (read_als_wait_frame w1 Hbus Hdef1)
        as (a' & w2 & E2 & Hc2 & Hn2 & _).
      assert (Hdef2 : it_defined (it_code w2) = true)
        by now rewrite (it_code_same_conf _ _ Hc2).
      destruct (IH gi a' w2) as
        (l & w' & E3 & Hgl & Hil & Hg' & Hi1 & Hi2 & Hsd & Hal);
        try assumption; try lia.
      exists l, w'. unfold bind, list_item. rewrite Hv. cbn [ret].
      unfold set_light_integration_time.
      rewrite rwbits_set_ok by assumption. fold w1. rewrite E2.
      split; [exact E3 |]. split; [exact Hgl |]. split; [lia |].
      split; [now rewrite Hg', (gain_code_same_conf _ _ Hc2) |].
      split; [intros; lia |].
      split.
      { intros _. destruct (Nat.eq_dec (it_index l) it) as [Heq | Hne].
        - rewrite Hi1, (it_code_same_conf _ _ Hc2), Hi, Heq by assumption.
          exact Hv.
        - apply Hi2. lia. }
      split; [now rewrite Hsd, (shutdown_bit_same_conf _ _ Hc2) |].
      right. destruct Hal as [-> | Hal]; [exact Hn2 | exact Hal].
    + exists (mkLocals gi (S it) true a), w. cbn.
      repeat split; auto; lia.
Qed.

(** X5: on a working bus, with a defined integration time latched at
    entry, the ranging of [autolux] returns with indices inside the two
    sequences; an index that is no longer at its start value (0 for the
    gain, 2 for the integration time) names the setting the device holds,
    and a field whose index is still at its start value is as it was at
    entry.  The high-light branch leaves [gain_index] at 0 and so never
    writes the gain; the shutdown bit is never touched. *)
Theorem autolux_settings_follow_indices w fuel :
  bus_ok ->
  it_defined (it_code w) = true ->
  (6 <= fuel)%nat ->
  exists l w',
    autolux_ranging fuel w = (Ok l, w') /\
    (gain_index l <= 3)%nat /\ (it_index l <= 5)%nat /\
    (gain_index l = 0%nat -> gain_code w' = gain_code w) /\
    ((0 < gain_index l)%nat ->
     nth_error gain_settings (gain_index l) = Some (gain_code w')) /\
    (it_index l = 2%nat -> it_code w' = it_code w) /\
    (it_index l <> 2%nat ->
     nth_error integration_time_settings (it_index l) = Some (it_code w')) /\
    (use_correction l = true -> gain_index l = 0%nat) /\
    shutdown_bit w' = shutdown_bit w.
Proof.
  intros Hbus Hdef Hfuel.
  destruct (read_als_wait_frame (after_conf_read (after_conf_read w)) Hbus Hdef)
    as (a & w0 & E & Hc & _).
  assert (Hdef0 : it_defined (it_code w0) = true)
    by now rewrite (it_code_same_conf _ _ Hc).
  assert (Hg0 : gain_code w0 = gain_code w)
    by now rewrite (gain_code_same_conf _ _ Hc).
  assert (Hi0 : it_code w0 = it_code w)
    by now rewrite (it_code_same_conf _ _ Hc).
  assert (Hs0 : shutdown_bit w0 = shutdown_bit w)
    by now rewrite (shutdown_bit_same_conf _ _ Hc).
  unfold autolux_ranging, bind.
  rewrite autolux_first_read_ok, E by assumption.
  destruct (a <=? 100).
  - destruct (low_loop_device Hbus fuel 0%nat 2%nat a w0)
      as (l & w' & E' & Hgl & Hil & Hg1 & Hg2 & Hi1 & Hi2 & Hsd);
      try assumption; try lia.
    destruct (low_loop_spec Hbus fuel 0%nat 2%nat a w0)
      as (l2 & w2 & E2 & Huc & _); try assumption; try lia.
    rewrite E' in E2. inversion E2; subst l2 w2; clear E2.
    exists l, w'. split; [exact E' |].
    split; [lia |]. split; [lia |].
    split; [intros H; now rewrite Hg1 |].
    split; [exact Hg2 |].
    split; [intros H; now rewrite Hi1 |].
    split; [intros H; apply Hi2; lia |].
    split; [intros H; congruence |].
    now rewrite Hsd.
  - destruct (high_loop_device Hbus 2%nat 0%nat a w0)
      as (l & w' & E' & Hgl & Hil & Hg' & Hi1 & Hi2 & Hsd & _);
      try assumption; try lia.
    exists l, w'. split; [exact E' |].
    split; [lia |]. split; [lia |].
    split; [intros _; now rewrite Hg' |].
    split; [intros H; lia |].
    split; [intros H; now rewrite Hi1 |].
    split; [intros H; apply Hi2; lia |].
    split; [intros _; exact Hgl |].
    now rewrite Hsd.
Qed.


(** *** The value [autolux] returns *)

(** [resolution()] on a working bus: its value, and what it leaves. *)
Lemma resolution_result w g t :
  bus_ok ->
  dict_get gain_values (gain_code w) = Some g ->
  dict_get integration_time_values (it_code w) = Some t ->
  exists w',
    resolution w
    = (Ok (if PrimFloat.eqb g gain_max && (t =? integration_time_max)
           then resolution_at_max else resolution_formula t g), w') /\
    conf0 w' = conf0 w /\
    als_reads (log w') = als_reads (log w) /\
    last_als (log w') = last_als (log w).
Proof.
  intros Hbus Hg Ht. destruct (PrimFloat.eqb g gain_max) eqn:E.
  - rewrite (resolution_max_gain w g t Hbus Hg Ht E). cbn [andb].
    destruct (t =? integration_time_max); eexists;
      (split; [reflexivity |]); (split; [reflexivity |]);
      rewrite !als_reads_after_conf_read, !last_als_after_conf_read;
      split; reflexivity.
  - rewrite (resolution_low_gain w g t Hbus Hg Ht E). cbn [andb].
    eexists. split; [reflexivity |]. split; [reflexivity |].
    rewrite !als_reads_after_conf_read, !last_als_after_conf_read.
    split; reflexivity.
Qed.

(** X6: on a working bus, with a defined integration time latched at
    entry, [autolux] returns after at least one and at most seven raw
    readings, whatever the sensor reports, and the reading taken last is a
    16-bit count. *)
Theorem autolux_reads_bounded w fuel :
  bus_ok ->
  it_defined (it_code w) = true ->
  (6 <= fuel)%nat ->
  exists x w' a,
    autolux fuel w = (Ok x, w') /\
    (als_reads (log w) + 1 <= als_reads (log w') <= als_reads (log w) + 7)%nat /\
    last_als (log w') = Some a /\
    0 <= a <= 65535.
Proof.
  intros Hbus Hdef Hfuel.
  destruct (read_als_wait_frame (after_conf_read (after_conf_read w)) Hbus Hdef)
    as (a0 & w0 & E & Hc & (n0 & Hn0) & Hr0 & Hl0).
  rewrite !als_reads_after_conf_read in Hr0.
  assert (Hdef0 : it_defined (it_code w0) = true)
    by now rewrite (it_code_same_conf _ _ Hc).
  assert (Ha0 : 0 <= a0 <= 65535) by (rewrite Hn0; apply unpack_H_range).
  assert (R : exists l w1,
             autolux_ranging fuel w = (Ok l, w1) /\
             it_defined (it_code w1) = true /\
             (als_reads (log w) + 1 <= als_reads (log w1)
              <= als_reads (log w) + 7)%nat /\
             last_als (log w1) = Some (als l) /\
             0 <= als l <= 65535).
  { unfold autolux_ranging, bind.
    rewrite autolux_first_read_ok, E by assumption.
    destruct (a0 <=? 100).
    - destruct (low_loop_spec Hbus fuel 0%nat 2%nat a0 w0)
        as (l & w1 & E' & _ & _ & Hgl & Hil & Hd & Hrd & Hal & Hla);
        try assumption; try lia.
      exists l, w1. split; [exact E' |]. split; [exact Hd |].
      split; [lia |]. split; [now apply Hla |].
      destruct Hal as [-> | [m ->]]; [exact Ha0 | apply unpack_H_range].
    - destruct (high_loop_spec Hbus 2%nat 0%nat a0 w0)
        as (l & w1 & E' & _ & _ & Hil & _ & Hd & Hrd & _ & Hla);
        try assumption; try lia.
      destruct (high_loop_device Hbus 2%nat 0%nat a0 w0)
        as (l2 & w2 & E2 & _ & _ & _ & _ & _ & _ & Hal);
        try assumption; try lia.
      rewrite E' in E2. inversion E2; subst l2 w2; clear E2.
      exists l, w1. split; [exact E' |]. split; [exact Hd |].
      split; [lia |]. split; [now apply Hla |].
      destruct Hal as [-> | [m ->]]; [exact Ha0 | apply unpack_H_range]. }
  destruct R as (l & w1 & Er & Hd & Hrd & Hla & Hrange).
  destruct (it_defined_true _ Hd) as [t Ht].
  destruct (gain_values_total (gain_code w1) (gain_code_range w1)) as [g Hg].
  destruct (resolution_result w1 g t Hbus Hg Ht) as (w' & Eres & _ & Hr' & Hl').
  rewrite (autolux_returns _ _ _ _ Er). unfold compute_lux, bind.
  rewrite Eres. eexists. exists w', (als l).
  split; [reflexivity |]. split; [lia |]. split; [congruence | exact Hrange].
Qed.

(** X7: on a working bus whose readings all stay at or below 100, with a
    defined integration time latched at entry, [autolux] leaves the
    device at gain 2 and 800 ms and returns [0.0042 * als] for the reading
    taken last. *)
Theorem autolux_in_the_dark w fuel :
  bus_ok ->
  it_defined (it_code w) = true ->
  (forall n, unpack_H (light_bytes env n) <= 100) ->
  (6 <= fuel)%nat ->
  exists a w',
    autolux fuel w = (Ok (0.0042 * float_of_Z a)%float, w') /\
    0 <= a <= 100 /\
    last_als (log w') = Some a /\
    gain_code w' = ALS_GAIN_2 /\ it_code w' = ALS_800MS.
Proof.
  intros Hbus Hdef Hdim Hfuel.
  destruct (read_als_wait_frame (after_conf_read (after_conf_read w)) Hbus Hdef)
    as (a0 & w0 & E & Hc & (n0 & Hn0) & _ & Hl0).
  assert (Ha0 : a0 <= 100) by (rewrite Hn0; apply Hdim).
  assert (Hdef0 : it_defined (it_code w0) = true)
    by now rewrite (it_code_same_conf _ _ Hc).
  destruct (low_loop_spec Hbus fuel 0%nat 2%nat a0 w0)
    as (l & w1 & E' & Huc & Hex & _ & _ & _ & _ & Hal & Hla);
    try assumption; try lia.
  destruct (low_loop_device Hbus fuel 0%nat 2%nat a0 w0)
    as (l2 & w2 & E2 & _ & _ & _ & Hg2 & _ & Hi2 & _);
    try assumption; try lia.
  rewrite E' in E2. inversion E2; subst l2 w2; clear E2.
  assert (Hal' : 0 <= als l <= 100).
  { destruct Hal as [-> | [m ->]].
    - split; [rewrite Hn0; apply unpack_H_range | exact Ha0].
    - split; [apply unpack_H_range | apply Hdim]. }
  destruct Hex as [Hex | [Hg3 Hi5]]; [lia |].
  assert (Hgain : gain_code w1 = ALS_GAIN_2).
  { assert (H : (0 < gain_index l)%nat) by lia.
    apply Hg2 in H. rewrite Hg3 in H.
    change (Some ALS_GAIN_2 = Some (gain_code w1)) in H. congruence. }
  assert (Hit : it_code w1 = ALS_800MS).
  { assert (H : (2 < it_index l)%nat) by lia.
    apply Hi2 in H. rewrite Hi5 in H.
    change (Some ALS_800MS = Some (it_code w1)) in H. congruence. }
  assert (Er : autolux_ranging fuel w = (Ok l, w1)).
  { unfold autolux_ranging, bind.
    rewrite autolux_first_read_ok, E by assumption.
    replace (a0 <=? 100) with true by (symmetry; apply Z.leb_le; exact Ha0).
    exact E'. }
  assert (Hg : dict_get gain_values (gain_code w1) = Some 2%float)
    by (rewrite Hgain; reflexivity).
  assert (Ht : dict_get integration_time_values (it_code w1) = Some 800)
    by (rewrite Hit; reflexivity).
  destruct (resolution_result w1 _ _ Hbus Hg Ht) as (w' & Eres & Hc' & _ & Hl').
  exists (als l), w'. split.
  - rewrite (autolux_returns _ _ _ _ Er), Huc. unfold compute_lux, bind.
    rewrite Eres. reflexivity.
  - split; [exact Hal' |]. split; [rewrite Hl'; now apply Hla |].
    split; [now rewrite (gain_code_same_conf _ _ Hc')
           | now rewrite (it_code_same_conf _ _ Hc')].
Qed.

(** X8: on a working bus whose readings all stay above 10000, with gain
    value [g] and a defined integration time latched at entry, [autolux]
    takes three readings, leaves the device at 25 ms with the gain it
    found, and returns the corrected
    [0.0042 * (800 / 25) * (2 / g) * als] for the reading taken last. *)
Theorem autolux_in_full_sun w fuel g :
  bus_ok ->
  it_defined (it_code w) = true ->
  dict_get gain_values (gain_code w) = Some g ->
  (forall n, 10000 < unpack_H (light_bytes env n)) ->
  exists a w',
    autolux fuel w
    = (Ok (correction (0.0042 * (800 / 25) * (2 / g) * float_of_Z a))%float,
       w') /\
    10000 < a <= 65535 /\
    last_als (log w') = Some a /\
    gain_code w' = gain_code w /\ it_code w' = ALS_25MS /\
    als_reads (log w') = (als_reads (log w) + 3)%nat.
Proof.
  intros Hbus Hdef Hg Hsun.
  destruct (read_als_wait_frame (after_conf_read (after_conf_read w)) Hbus Hdef)
    as (a0 & w0 & E & Hc & (n0 & Hn0) & Hr0 & Hl0).
  rewrite !als_reads_after_conf_read in Hr0.
  assert (Ha0 : 10000 < a0) by (rewrite Hn0; apply Hsun).
  assert (Hdef0 : it_defined (it_code w0) = true)
    by now rewrite (it_code_same_conf _ _ Hc).
  destruct (high_loop_spec Hbus 2%nat 0%nat a0 w0)
    as (l & w1 & E' & Huc & _ & Hil & Hex & _ & Hrd & _ & Hla);
    try assumption; try lia.
  destruct (high_loop_device Hbus 2%nat 0%nat a0 w0)
    as (l2 & w2 & E2 & _ & _ & Hg' & _ & Hi2 & _ & Hal);
    try assumption; try lia.
  rewrite E' in E2. inversion E2; subst l2 w2; clear E2.
  assert (Hal' : 10000 < als l <= 65535).
  { destruct Hal as [-> | [m ->]].
    - split; [exact Ha0 | rewrite Hn0; apply unpack_H_range].
    - split; [apply Hsun | apply unpack_H_range]. }
  destruct Hex as [Hex | Hi0]; [lia |].
  assert (Hit : it_code w1 = ALS_25MS).
  { assert (H : (it_index l < 2)%nat) by lia.
    apply Hi2 in H. rewrite Hi0 in H.
    change (Some ALS_25MS = Some (it_code w1)) in H. congruence. }
  assert (Hgain : gain_code w1 = gain_code w)
    by now rewrite Hg', (gain_code_same_conf _ _ Hc).
  assert (Er : autolux_ranging fuel w = (Ok l, w1)).
  { unfold autolux_ranging, bind.
    rewrite autolux_first_read_ok, E by assumption.
    replace (a0 <=? 100) with false by (symmetry; apply Z.leb_gt; lia).
    exact E'. }
  assert (Hg1 : dict_get gain_values (gain_code w1) = Some g)
    by now rewrite Hgain.
  assert (Ht : dict_get integration_time_values (it_code w1) = Some 25)
    by (rewrite Hit; reflexivity).
  destruct (resolution_result w1 _ _ Hbus Hg1 Ht)
    as (w' & Eres & Hc' & Hr' & Hl').
  exists (als l), w'. split.
  - rewrite (autolux_returns _ _ _ _ Er), Huc. unfold compute_lux, bind.
    rewrite Eres. rewrite andb_false_r. reflexivity.
  - split; [exact Hal' |]. split; [rewrite Hl'; now apply Hla |].
    split; [now rewrite (gain_code_same_conf _ _ Hc') |].
    split; [now rewrite (it_code_same_conf _ _ Hc') |].
    rewrite Hr', Hrd, Hr0, Hi0. lia.
Qed.


(** *** The two sequences are ordered by sensitivity *)

Lemma resolution_value_of w g t :
  bus_ok ->
  dict_get gain_values (gain_code w) = Some g ->
  dict_get integration_time_values (it_code w) = Some t ->
  fst (resolution w)
  = Ok (if PrimFloat.eqb g gain_max && (t =? integration_time_max)
        then resolution_at_max else resolution_formula t g).
Proof.
  intros Hbus Hg Ht.
  destruct (resolution_result w g t Hbus Hg Ht) as (w' & E & _).
  now rewrite E.
Qed.

(** X9: on a working bus, for two states of the device with the same
    defined integration time, the second holding the entry of
    [gain_settings] that follows the one the first holds, [resolution()]
    is strictly smaller in the second; for two states with the same gain,
    the second holding the entry of [integration_time_settings] that
    follows the one the first holds, [resolution()] in the first is exactly
    twice that in the second.  Every resolution lies between 0.0042 and
    2.1504. *)
Theorem resolution_steps w1 w2 :
  bus_ok ->
  it_defined (it_code w1) = true ->
  (forall i,
      it_code w2 = it_code w1 ->
      nth_error gain_settings i = Some (gain_code w1) ->
      nth_error gain_settings (S i) = Some (gain_code w2) ->
      exists r1 r2,
        fst (resolution w1) = Ok r1 /\ fst (resolution w2) = Ok r2 /\
        PrimFloat.ltb r2 r1 = true) /\
  (forall i,
      gain_code w2 = gain_code w1 ->
      nth_error integration_time_settings i = Some (it_code w1) ->
      nth_error integration_time_settings (S i) = Some (it_code w2) ->
      exists r1 r2,
        fst (resolution w1) = Ok r1 /\ fst (resolution w2) = Ok r2 /\
        r1 = (2 * r2)%float) /\
  (exists r,
      fst (resolution w1) = Ok r /\
      PrimFloat.leb 0.0042 r = true /\ PrimFloat.leb r 2.1504 = true).
Proof.
  intros Hbus Hdef.
  destruct (it_defined_true _ Hdef) as [t Ht].
  split; [| split].
  - intros i Hsame H1 H2.
    assert (Ht2 : dict_get integration_time_values (it_code w2) = Some t)
      by now rewrite Hsame.
    assert (G : exists g1 g2,
               dict_get gain_values (gain_code w1) = Some g1 /\
               dict_get gain_values (gain_code w2) = Some g2 /\
               ((g1 = 0.125 /\ g2 = 0.25) \/ (g1 = 0.25 /\ g2 = 1) \/
                (g1 = 1 /\ g2 = 2))%float).
    { destruct i as [| [| [| i]]]; cbn [nth_error gain_settings] in H1, H2;
        try (destruct i; discriminate H2);
        inversion H1 as [E1]; inversion H2 as [E2];
        eexists; eexists; (split; [reflexivity |]); (split; [reflexivity |]);
        tauto. }
    destruct G as (g1 & g2 & Hg1 & Hg2 & Hcases).
    exists (if PrimFloat.eqb g1 gain_max && (t =? integration_time_max)
            then resolution_at_max else resolution_formula t g1),
           (if PrimFloat.eqb g2 gain_max && (t =? integration_time_max)
            then resolution_at_max else resolution_formula t g2).
    split; [now apply resolution_value_of |].
    split; [now apply resolution_value_of |].
    apply integration_time_values_inv in Ht.
    destruct Hcases as [[-> ->] | [[-> ->] | [-> ->]]];
      destruct Ht as [[_ ->] | [[_ ->] | [[_ ->] | [[_ ->] | [[_ ->] | [_ ->]]]]]];
      vm_compute; reflexivity.
  - intros i Hsame H1 H2.
    destruct (gain_values_total (gain_code w1) (gain_code_range w1)) as [g Hg].
    assert (Hg2 : dict_get gain_values (gain_code w2) = Some g)
      by now rewrite Hsame.
    assert (T : exists t1 t2,
               dict_get integration_time_values (it_code w1) = Some t1 /\
               dict_get integration_time_values (it_code w2) = Some t2 /\
               ((t1 = 25 /\ t2 = 50) \/ (t1 = 50 /\ t2 = 100) \/
                (t1 = 100 /\ t2 = 200) \/ (t1 = 200 /\ t2 = 400) \/
                (t1 = 400 /\ t2 = 800))).
    { destruct i as [| [| [| [| [| i]]]]];
        cbn [nth_error integration_time_settings] in H1, H2;
        try (destruct i; discriminate H2);
        inversion H1 as [E1]; inversion H2 as [E2];
        eexists; eexists; (split; [reflexivity |]); (split; [reflexivity |]);
        tauto. }
    destruct T as (t1 & t2 & Ht1 & Ht2 & Hcases).
    exists (if PrimFloat.eqb g gain_max && (t1 =? integration_time_max)
            then resolution_at_max else resolution_formula t1 g),
           (if PrimFloat.eqb g gain_max && (t2 =? integration_time_max)
            then resolution_at_max else resolution_formula t2 g).
    split; [now apply resolution_value_of |].
    split; [now apply resolution_value_of |].
    apply gain_values_inv in Hg.
    destruct Hcases as [[-> ->] | [[-> ->] | [[-> ->] | [[-> ->] | [-> ->]]]]];
      destruct Hg as [[_ ->] | [[_ ->] | [[_ ->] | [_ ->]]]];
      vm_compute; reflexivity.
  - destruct (gain_values_total (gain_code w1) (gain_code_range w1)) as [g Hg].
    exists (if PrimFloat.eqb g gain_max && (t =? integration_time_max)
            then resolution_at_max else resolution_formula t g).
    split; [now apply resolution_value_of |].
    apply gain_values_inv in Hg. apply integration_time_values_inv in Ht.
    destruct Hg as [[_ ->] | [[_ ->] | [[_ ->] | [_ ->]]]];
      destruct Ht as [[_ ->] | [[_ ->] | [[_ ->] | [[_ ->] | [[_ ->] | [_ ->]]]]]];
      vm_compute; split; reflexivity.
Qed.


(** *** The wait after a change of setting *)

(** A guarded reading that returned was stamped at least twice the latched
    integration time after the previous stamp. *)
Lemma read_als_wait_spacing w t a w' :
  bus_ok ->
  time_flows ->
  dict_get integration_time_values (it_code w) = Some t ->
  _read_als_wait w = (Ok a, w') ->
  (last_read w + inject_Z (2 * t) <= last_read w')%Q /\ conf0 w' = conf0 w.
Proof.
  intros Hbus Hflow Ht E.
  pose proof (read_als_wait_ok w t Hbus Ht) as E0. cbv zeta in E0.
  set (w1 := after_conf_read w) in *.
  set (w2 := advance (elapse env (tick w1)) (EvClock (clock w1)) w1) in *.
  set (ttw := inject_Z (2 * t)) in *.
  set (tw := (clock w1 * 1000 - last_read w)%Q) in *.
  set (secs := ((ttw - tw) / 1000)%Q) in *.
  set (w3 := if Qltb tw ttw
             then advance (secs + elapse env (tick w2)) (EvSleep secs) w2
             else w2) in *.
  rewrite E in E0. inversion E0 as [[Ha Hw]]. clear E0 Ha.
  pose proof (Hflow (tick w)) as F0.
  pose proof (Hflow (tick w1)) as F1.
  pose proof (Hflow (tick w2)) as F2.
  assert (C1 : clock w1 = (clock w + elapse env (tick w))%Q) by reflexivity.
  assert (C2 : clock w2 = (clock w1 + elapse env (tick w1))%Q) by reflexivity.
  assert (TW : (tw == (clock w + elapse env (tick w)) * 1000 - last_read w)%Q)
    by (unfold tw; rewrite C1; reflexivity).
  cbn [last_read conf0 advance stamped].
  subst w3. destruct (Qltb tw ttw) eqn:Hlt.
  - split; [| reflexivity].
    assert (C3 : clock (advance (secs + elapse env (tick w2)) (EvSleep secs) w2)
                 = (clock w2 + (secs + elapse env (tick w2)))%Q) by reflexivity.
    rewrite C3, C2, C1.
    assert (S1 : (secs * 1000 == ttw - tw)%Q) by (unfold secs; field).
    apply Qltb_true in Hlt. lra.
  - split; [| reflexivity].
    apply Qltb_false in Hlt. rewrite C2, C1. lra.
Qed.

Lemma read_als_wait_returns_defined w a w' :
  bus_ok ->
  _read_als_wait w = (Ok a, w') ->
  exists t, dict_get integration_time_values (it_code w) = Some t.
Proof.
  intros Hbus E.
  destruct (dict_get integration_time_values (it_code w)) as [t |] eqn:Ht.
  - now exists t.
  - unfold _read_als_wait, bind in E.
    rewrite (integration_time_value_undefined w Hbus Ht) in E. discriminate.
Qed.

Lemma keeps_last_read_low_adjust gi it : keeps last_read (low_adjust gi it).
Proof.
  unfold low_adjust. destruct (gi <? 3)%nat; [| destruct (it <? 5)%nat].
  - apply keeps_bind; [unfold list_item; destruct (nth_error _ _);
                       [apply keeps_ret | apply keeps_raise] |].
    intros v. apply keeps_bind; [apply keeps_last_read_rwbits_set |].
    intros; apply keeps_ret.
  - apply keeps_bind; [unfold list_item; destruct (nth_error _ _);
                       [apply keeps_ret | apply keeps_raise] |].
    intros v. apply keeps_bind; [apply keeps_last_read_rwbits_set |].
    intros; apply keeps_ret.
  - apply keeps_ret.
Qed.

(** X10: on a working bus, when time does not run backwards, every
    iteration of the two loops of [autolux] ends with a reading stamped at
    least twice the integration time latched at that moment after the
    stamp of the reading before; in the high-light loop that integration
    time is the entry of [integration_time_settings] the iteration has
    just written. *)
Theorem ranging_waits_for_new_setting :
  bus_ok ->
  time_flows ->
  (forall gi it a w gi' it' a' w',
      low_iteration (gi, it, a, w) (gi', it', a', w') ->
      exists t,
        dict_get integration_time_values (it_code w') = Some t /\
        (last_read w + inject_Z (2 * t) <= last_read w')%Q) /\
  (forall it a w it' a' w',
      high_iteration (it, a, w) (it', a', w') ->
      exists v t,
        nth_error integration_time_settings it' = Some v /\
        it_code w' = v /\
        dict_get integration_time_values v = Some t /\
        (last_read w + inject_Z (2 * t) <= last_read w')%Q).
Proof.
  intros Hbus Hflow. split.
  - intros gi it a w gi' it' a' w' (_ & w1 & Hadj & Hread).
    destruct (read_als_wait_returns_defined _ _ _ Hbus Hread) as [t Ht].
    destruct (read_als_wait_spacing _ _ _ _ Hbus Hflow Ht Hread) as [Hsp Hc].
    exists t. split; [now rewrite (it_code_same_conf _ _ Hc) |].
    pose proof (keeps_last_read_low_adjust gi it w) as Hk.
    rewrite Hadj in Hk. cbn [snd] in Hk. now rewrite <- Hk.
  - intros it a w it' a' w' (_ & Hpos & v & w1 & Hv & Hset & -> & Hread).
    assert (Hlt : (Nat.pred it < 6)%nat).
    { change 6%nat with (length integration_time_settings).
      apply nth_error_Some. congruence. }
    destruct (integration_time_settings_item _ Hlt) as (v' & Hv' & Hr & _).
    assert (v' = v) by congruence. subst v'.
    unfold set_light_integration_time in Hset.
    rewrite rwbits_set_ok in Hset by assumption.
    inversion Hset as [Hw1]. clear Hset.
    destruct (read_als_wait_returns_defined _ _ _ Hbus Hread) as [t Ht].
    destruct (read_als_wait_spacing _ _ _ _ Hbus Hflow Ht Hread) as [Hsp Hc].
    rewrite <- Hw1 in Ht, Hsp, Hc.
    rewrite it_code_after_field_write_it in Ht by assumption.
    exists v, t. split; [exact Hv |].
    split.
    { rewrite (it_code_same_conf _ _ Hc).
      now apply it_code_after_field_write_it. }
    split; [exact Ht | exact Hsp].
Qed.

End Driver.

(** ** The statements on the scenarios *)

Lemma bus_ok_dark : bus_ok dark_env.
Proof. intros n. reflexivity. Defined.

Lemma time_flows_dark : time_flows dark_env.
Proof. intros n. vm_compute. discriminate. Defined.

Lemma bus_ok_sunny : bus_ok sunny_env.
Proof. intros n. reflexivity. Defined.


(** C2 in full sun, from power-on. *)
Lemma autolux_high_light_branch_witness :
  let a0 := 65330 in
  let w0 := snd (autolux_first_read sunny_env power_on) in
  autolux_first_read sunny_env power_on = (Ok a0, w0) /\
  exists l w',
    autolux_ranging sunny_env 0 power_on = (Ok l, w') /\
    use_correction l = true /\
    (it_index l <= 2)%nat /\
    (als l <= 10000 \/ it_index l = 0%nat) /\
    (als_reads (log w') <= als_reads (log w0) + 2)%nat /\
    last_als (log w') = Some (als l) /\
    autolux sunny_env 0 power_on = compute_lux sunny_env (als l) true w'.
Proof.
  cbv zeta.
  assert (E : autolux_first_read sunny_env power_on
              = (Ok 65330, snd (autolux_first_read sunny_env power_on)))
    by (vm_compute; reflexivity).
  assert (Ha : 100 < 65330) by lia.
  split; [exact E |].
  destruct (proj2 (autolux_high_light_branch sunny_env power_on 0 65330 _
                     bus_ok_sunny E Ha))
    as (l & w' & H1 & H2 & _ & H3 & H4 & _ & H5 & H6 & H7).
  exists l, w'.
  exact (conj H1 (conj H2 (conj H3 (conj H4 (conj H5 (conj H6 H7)))))).
Defined.


(** C5 at the reference point and C6 on the example of 1000 counts. *)
Lemma resolution_value_witness :
  dict_get gain_values (gain_code most_sensitive) = Some 2%float /\
  dict_get integration_time_values (it_code most_sensitive) = Some 800 /\
  resolution dark_env most_sensitive
  = (Ok 0.0042%float,
     after_conf_read dark_env (after_conf_read dark_env most_sensitive)).
Proof.
  assert (Hg : dict_get gain_values (gain_code most_sensitive) = Some 2%float)
    by reflexivity.
  assert (Ht : dict_get integration_time_values (it_code most_sensitive)
               = Some 800) by reflexivity.
  split; [exact Hg |]. split; [exact Ht |].
  apply (proj1 (proj2 (proj2 (resolution_value dark_env most_sensitive _ _
                                bus_ok_dark Hg Ht)))).
  split; reflexivity.
Defined.

Lemma compute_lux_value_witness :
  let w' := after_conf_read dark_env (after_conf_read dark_env most_sensitive) in
  resolution dark_env most_sensitive = (Ok 0.0042%float, w') /\
  compute_lux dark_env 1000 false most_sensitive
  = (Ok (0.0042 * 1000)%float, w') /\
  compute_lux dark_env 1000 true most_sensitive
  = (Ok 4.211096752642991%float, w').
Proof.
  cbv zeta.
  assert (Hr : resolution dark_env most_sensitive
               = (Ok 0.0042%float,
                  after_conf_read dark_env
                    (after_conf_read dark_env most_sensitive)))
    by (vm_compute; reflexivity).
  assert (Hraw : 0 <= 1000 <= 65535) by lia.
  split; [exact Hr |].
  exact (compute_lux_value dark_env most_sensitive 1000 _ _ Hraw Hr).
Defined.

(** C7 right after power-on: the call sleeps the 199 ms that are left. *)
Lemma read_als_wait_timing_witness :
  dict_get integration_time_values (it_code power_on) = Some 100 /\
  exists now stamp a w',
    _read_als_wait dark_env power_on = (Ok a, w') /\
    log w' = log power_on
             ++ [EvBusRead 0 (conf0 power_on); EvClock now]
             ++ (if Qltb (now * 1000 - last_read power_on) (inject_Z (2 * 100))
                 then [EvSleep ((inject_Z (2 * 100)
                                 - (now * 1000 - last_read power_on)) / 1000)]
                 else [])
             ++ [EvClock stamp; EvBusRead 4 a] /\
    last_read w' = (stamp * 1000)%Q /\
    (clock power_on * 1000 <= last_read w')%Q /\
    (last_read power_on + inject_Z (2 * 100) <= last_read w')%Q.
Proof.
  assert (Ht : dict_get integration_time_values (it_code power_on) = Some 100)
    by reflexivity.
  split; [exact Ht |].
  destruct (read_als_wait_timing dark_env power_on 100 bus_ok_dark Ht)
    as (now & stamp & a & w' & H1 & H2 & H3 & _ & H4).
  destruct (H4 time_flows_dark) as (_ & _ & H5 & H6).
  exists now, stamp, a, w'.
  exact (conj H1 (conj H2 (conj H3 (conj H5 H6)))).
Defined.

(** C8 on the example of the specification: a request of 0 s at 400 ms. *)
Lemma wait_autolux_sleeps_witness :
  dict_get integration_time_values (it_code at_400ms) = Some 400 /\
  exists secs w',
    wait_autolux dark_env 0 at_400ms = (Ok tt, w') /\
    log w' = log at_400ms ++ [EvBusRead 0 (conf0 at_400ms); EvSleep secs] /\
    (secs == Qmax 0 (inject_Z 400 / 1000))%Q.
Proof.
  assert (Ht : dict_get integration_time_values (it_code at_400ms) = Some 400)
    by reflexivity.
  split; [exact Ht |].
  destruct (wait_autolux_sleeps dark_env at_400ms 0 400 bus_ok_dark Ht)
    as (secs & w' & H1 & H2 & H3 & _).
  exists secs, w'. exact (conj H1 (conj H2 H3)).
Defined.

(** C9 on the flaky bus (two failed attempts, then success) and on the
    dead bus. *)
Lemma init_retries_witness :
  (exists w3, __init__ flaky_env power_on = (Ok tt, stamped flaky_env w3) /\
              gain_code w3 = ALS_GAIN_1_8 /\ shutdown_bit w3 = 0) /\
  (exists w3, __init__ dead_env power_on = (Raise RuntimeError, w3)).
Proof.
  split.
  - set (w1 := snd (enable_sequence flaky_env power_on)).
    set (w2 := snd (enable_sequence flaky_env w1)).
    set (w3 := snd (enable_sequence flaky_env w2)).
    exists w3.
    apply (proj1 (proj2 (proj2 (init_retries flaky_env power_on))) w1 w2 w3);
      vm_compute; reflexivity.
  - set (w1 := snd (enable_sequence dead_env power_on)).
    set (w2 := snd (enable_sequence dead_env w1)).
    set (w3 := snd (enable_sequence dead_env w2)).
    exists w3.
    apply (proj1 (proj2 (proj2 (proj2 (init_retries dead_env power_on))))
             w1 w2 w3); vm_compute; reflexivity.
Defined.

(** C10 with the undefined code 4 latched. *)
Lemma integration_time_lookup_partial_witness :
  it_defined (it_code undefined_it) = false /\
  fst (integration_time_value dark_env undefined_it) = Raise KeyError /\
  fst (resolution dark_env undefined_it) = Raise KeyError /\
  fst (_read_als_wait dark_env undefined_it) = Raise KeyError /\
  (forall fuel, fst (autolux dark_env fuel undefined_it) = Raise ValueError).
Proof.
  assert (Hu : it_defined (it_code undefined_it) = false) by reflexivity.
  split; [exact Hu |].
  destruct (proj1 (proj2 (proj2 (proj2 (proj2 (proj2
              (integration_time_lookup_partial dark_env undefined_it
                 bus_ok_dark)))))) Hu)
    as (H1 & H2 & _ & _ & H3 & _ & H4).
  exact (conj H1 (conj H2 (conj H3 H4))).
Defined.

Lemma time_flows_sunny : time_flows sunny_env.
Proof. intros n. vm_compute. discriminate. Defined.

(** X2 after power-on. *)
Lemma settings_round_trip_witness :
  (exists w',
      bind (set_light_gain dark_env ALS_GAIN_2) (fun _ => light_gain dark_env)
           power_on = (Ok ALS_GAIN_2, w') /\
      it_code w' = it_code power_on /\
      shutdown_bit w' = shutdown_bit power_on) /\
  (exists w',
      bind (set_light_integration_time dark_env ALS_25MS)
           (fun _ => light_integration_time dark_env) power_on
      = (Ok ALS_25MS, w') /\
      gain_code w' = gain_code power_on /\
      shutdown_bit w' = shutdown_bit power_on).
Proof.
  destruct (settings_round_trip dark_env power_on bus_ok_dark) as (H1 & H2 & _).
  split.
  - apply (H1 ALS_GAIN_2). unfold ALS_GAIN_2. lia.
  - apply (H2 ALS_25MS). unfold ALS_25MS. lia.
Defined.

(** X5 in the dark, from the most sensitive setting. *)
Lemma autolux_settings_follow_indices_witness :
  it_defined (it_code most_sensitive) = true /\
  exists l w',
    autolux_ranging dark_env 6 most_sensitive = (Ok l, w') /\
    ((0 < gain_index l)%nat ->
     nth_error gain_settings (gain_index l) = Some (gain_code w')) /\
    (it_index l <> 2%nat ->
     nth_error integration_time_settings (it_index l) = Some (it_code w')) /\
    shutdown_bit w' = shutdown_bit most_sensitive.
Proof.
  assert (Hd : it_defined (it_code most_sensitive) = true) by reflexivity.
  split; [exact Hd |].
  destruct (autolux_settings_follow_indices dark_env most_sensitive 6
              bus_ok_dark Hd (le_n 6))
    as (l & w' & H1 & _ & _ & _ & H2 & _ & H3 & _ & H4).
  exists l, w'. exact (conj H1 (conj H2 (conj H3 H4))).
Defined.

(** X6 in a lit room, after power-on. *)
Lemma autolux_reads_bounded_witness :
  it_defined (it_code power_on) = true /\
  exists x w' a,
    autolux indoor_env 6 power_on = (Ok x, w') /\
    (als_reads (log power_on) + 1 <= als_reads (log w')
     <= als_reads (log power_on) + 7)%nat /\
    last_als (log w') = Some a /\
    0 <= a <= 65535.
Proof.
  assert (Hb : bus_ok indoor_env) by (intros n; reflexivity).
  assert (Hd : it_defined (it_code power_on) = true) by reflexivity.
  split; [exact Hd |].
  exact (autolux_reads_bounded indoor_env power_on 6 Hb Hd (le_n 6)).
Defined.

(** X7 after power-on. *)
Lemma autolux_in_the_dark_witness :
  it_defined (it_code power_on) = true /\
  (forall n, unpack_H (light_bytes dark_env n) <= 100) /\
  exists a w',
    autolux dark_env 6 power_on = (Ok (0.0042 * float_of_Z a)%float, w') /\
    0 <= a <= 100 /\
    last_als (log w') = Some a /\
    gain_code w' = ALS_GAIN_2 /\ it_code w' = ALS_800MS.
Proof.
  assert (Hd : it_defined (it_code power_on) = true) by reflexivity.
  assert (Hdim : forall n, unpack_H (light_bytes dark_env n) <= 100)
    by (intros n; vm_compute; discriminate).
  split; [exact Hd |]. split; [exact Hdim |].
  exact (autolux_in_the_dark dark_env power_on 6 bus_ok_dark Hd Hdim (le_n 6)).
Defined.

(** X8 after power-on, where the gain is 1. *)
Lemma autolux_in_full_sun_witness :
  it_defined (it_code power_on) = true /\
  dict_get gain_values (gain_code power_on) = Some 1%float /\
  (forall n, 10000 < unpack_H (light_bytes sunny_env n)) /\
  exists a w',
    autolux sunny_env 0 power_on
    = (Ok (correction (0.0042 * (800 / 25) * (2 / 1) * float_of_Z a))%float,
       w') /\
    10000 < a <= 65535 /\
    last_als (log w') = Some a /\
    gain_code w' = gain_code power_on /\ it_code w' = ALS_25MS /\
    als_reads (log w') = (als_reads (log power_on) + 3)%nat.
Proof.
  assert (Hd : it_defined (it_code power_on) = true) by reflexivity.
  assert (Hg : dict_get gain_values (gain_code power_on) = Some 1%float)
    by reflexivity.
  assert (Hsun : forall n, 10000 < unpack_H (light_bytes sunny_env n))
    by (intros n; vm_compute; reflexivity).
  split; [exact Hd |]. split; [exact Hg |]. split; [exact Hsun |].
  exact (autolux_in_full_sun sunny_env power_on 0 1%float bus_ok_sunny Hd Hg Hsun).
Defined.

(** X9 from gain 1 to gain 2 at 100 ms. *)
Lemma resolution_steps_witness :
  let w2 := mkWorld 0x0800 0 0 0 [] in
  it_defined (it_code power_on) = true /\
  it_code w2 = it_code power_on /\
  nth_error gain_settings 2 = Some (gain_code power_on) /\
  nth_error gain_settings 3 = Some (gain_code w2) /\
  exists r1 r2,
    fst (resolution dark_env power_on) = Ok r1 /\
    fst (resolution dark_env w2) = Ok r2 /\
    PrimFloat.ltb r2 r1 = true.
Proof.
  cbv zeta.
  assert (Hd : it_defined (it_code power_on) = true) by reflexivity.
  assert (H0 : it_code (mkWorld 0x0800 0 0 0 []) = it_code power_on)
    by reflexivity.
  assert (H1 : nth_error gain_settings 2 = Some (gain_code power_on))
    by reflexivity.
  assert (H2 : nth_error gain_settings 3
               = Some (gain_code (mkWorld 0x0800 0 0 0 []))) by reflexivity.
  split; [exact Hd |]. split; [exact H0 |]. split; [exact H1 |].
  split; [exact H2 |].
  exact (proj1 (resolution_steps dark_env power_on (mkWorld 0x0800 0 0 0 [])
                  bus_ok_dark Hd) 2%nat H0 H1 H2).
Defined.

(** X10 on the first iteration of the high-light loop in full sun. *)
Lemma ranging_waits_for_new_setting_witness :
  let w0 := snd (autolux_first_read sunny_env power_on) in
  let w1 := snd (set_light_integration_time sunny_env ALS_50MS w0) in
  let w' := snd (_read_als_wait sunny_env w1) in
  high_iteration sunny_env (2%nat, 65330, w0) (1%nat, 65330, w') /\
  exists v t,
    nth_error integration_time_settings 1 = Some v /\
    it_code w' = v /\
    dict_get integration_time_values v = Some t /\
    (last_read w0 + inject_Z (2 * t) <= last_read w')%Q.
Proof.
  cbv zeta.
  assert (Hstep : high_iteration sunny_env
                    (2%nat, 65330, snd (autolux_first_read sunny_env power_on))
                    (1%nat, 65330,
                     snd (_read_als_wait sunny_env
                            (snd (set_light_integration_time sunny_env ALS_50MS
                                    (snd (autolux_first_read sunny_env
                                            power_on))))))).
  { split; [reflexivity |]. split; [lia |].
    exists ALS_50MS,
      (snd (set_light_integration_time sunny_env ALS_50MS
              (snd (autolux_first_read sunny_env power_on)))).
    split; [reflexivity |].
    split; [vm_compute; reflexivity |].
    split; [reflexivity |].
    vm_compute; reflexivity. }
  split; [exact Hstep |].
  exact (proj2 (ranging_waits_for_new_setting sunny_env bus_ok_sunny
                  time_flows_sunny) _ _ _ _ _ _ Hstep).
Defined.

(** C3: the device holds gain 2 and 800 ms.  The two [index] calls of
    [autolux] find the positions 3 and 5 of the latched settings and drop
    them.  In a room at 150 counts the ranging keeps [gain_index = 0] and
    [it_index = 2], which name gain 1/8 and 100 ms, up to its [return],
    while the device keeps gain 2 and 800 ms.  In the dark the first
    iteration of the low-light loop, run with these indices, latches
    [gain_settings[1]], gain 1/4, in place of gain 2. *)
Theorem autolux_indices_ignore_device :
  list_index gain_settings (gain_code most_sensitive) = Some 3%nat /\
  list_index integration_time_settings (it_code most_sensitive) = Some 5%nat /\
  (exists l w',
      autolux_ranging indoor_env 6 most_sensitive = (Ok l, w') /\
      gain_index l = 0%nat /\ it_index l = 2%nat /\
      nth_error gain_settings (gain_index l) = Some ALS_GAIN_1_8 /\
      nth_error integration_time_settings (it_index l) = Some ALS_100MS /\
      gain_code w' = ALS_GAIN_2 /\ it_code w' = ALS_800MS) /\
  (exists w0 w1,
      autolux_first_read dark_env most_sensitive = (Ok 50, w0) /\
      low_continue 0 2 50 = true /\
      gain_code w0 = ALS_GAIN_2 /\
      low_adjust dark_env 0 2 w0 = (Ok (1%nat, 2%nat), w1) /\
      gain_code w1 = ALS_GAIN_1_4 /\ it_code w1 = ALS_800MS).
Proof.
  split; [reflexivity |]. split; [reflexivity |]. split.
  - exists (mkLocals 0 2 true 150),
           (snd (autolux_ranging indoor_env 6 most_sensitive)).
    vm_compute. repeat split; reflexivity.
  - exists (snd (autolux_first_read dark_env most_sensitive)),
           (snd (low_adjust dark_env 0 2
                   (snd (autolux_first_read dark_env most_sensitive)))).
    vm_compute. repeat split; reflexivity.
Qed.

End VEML7700.
